(** * FiscalAI: a shallow embedding of [main.py]

    The backend is a set of FastAPI handlers over one in-memory user table.
    Each handler is embedded as a function in a state-and-exception monad
    over the [World] the handlers can touch (the user table, the entropy
    the password hasher draws its salts from, the clock, and the log of
    calls made to outside services).  Third-party libraries (passlib, PyJWT,
    requests, stripe) are taken at their interface, as section variables. *)

From Stdlib Require Import ZArith Floats Lia.
From stdpp Require Import gmap strings list.

(** ** Python values *)

(** The values the handlers build: dict and list literals, strings, numbers.
    A [datetime] is kept as microseconds since the epoch (naive UTC). *)
#[warnings="-register-all"]
Inductive value : Type :=
  | VNone
  | VBool (b : bool)
  | VInt (n : Z)
  | VFloat (x : float)
  | VStr (s : string)
  | VDatetime (us : Z)
  | VList (l : list value)
  | VDict (d : list (string * value)).

(** [d.get(k)] on a dict literal: the first binding of [k]. *)
Fixpoint dict_get (k : string) (d : list (string * value)) : option value :=
  match d with
  | [] => None
  | (k', v) :: d' => if decide (k' = k) then Some v else dict_get k d'
  end.

(** [str(x)] for an optional string, as an f-string renders it. *)
Definition str_opt (o : option string) : string :=
  match o with Some s => s | None => "None" end.

(** [v[k]] when [v] is a dict. *)
Definition dict_item (k : string) (v : value) : option value :=
  match v with
  | VDict d => dict_get k d
  | _ => None
  end.

(** [item["price_data"]["unit_amount"]] for each of [kwargs["line_items"]]. *)
Definition unit_amounts (kwargs : value) : list (option value) :=
  match dict_item "line_items" kwargs with
  | Some (VList items) =>
      map (fun item => dict_item "price_data" item ≫= dict_item "unit_amount") items
  | _ => []
  end.

(** ** The builtin [round(x, ndigits)] on floats *)

Module PyFloat.

Local Open Scope Z_scope.

(** Quotient of two positive integers rounded to the nearest integer, ties
    to the even one. *)
Definition rne_div (a b : Z) : Z :=
  let q := a / b in
  let r := a mod b in
  match 2 * r ?= b with
  | Lt => q
  | Gt => q + 1
  | Eq => if Z.even q then q else q + 1
  end.

(** [floor (log2 (n / d))] for positive [n] and [d]. *)
Definition log2_quot (n d : Z) : Z :=
  let l := Z.log2 n - Z.log2 d in
  let ge := if 0 <=? l then d * 2 ^ l <=? n else d <=? n * 2 ^ (- l) in
  if ge then l else l - 1.

(** The double nearest to [n / d] (ties to even), for [0 <= n], [0 < d] and
    a quotient in the normal range. *)
Definition nearest_float (n d : Z) : float :=
  if n =? 0 then PrimFloat.zero
  else
    let e := log2_quot n d - 52 in
    let q := if 0 <=? e then rne_div n (d * 2 ^ e) else rne_div (n * 2 ^ (- e)) d in
    Z.ldexp (PrimFloat.of_uint63 (Uint63.of_Z q)) e.

(** [round(x, ndigits)] for [ndigits >= 0]: [x] is rounded, ties to even on
    its exact binary value, to the decimal with [ndigits] places, and the
    result is the double nearest to that decimal.  Zeros, infinities and
    NaN round to themselves. *)
Definition round (x : float) (ndigits : nat) : float :=
  match Prim2SF x with
  | S754_finite s m e =>
      let scale := 10 ^ Z.of_nat ndigits in
      let n := if 0 <=? e then Z.pos m * 2 ^ e * scale
               else rne_div (Z.pos m * scale) (2 ^ (- e)) in
      let r := nearest_float n scale in
      if s then (- r)%float else r
  | _ => x
  end.

End PyFloat.



(** ** Rounding to decimals, as a relation

    What "rounded to 2 decimals" asks of a result, stated without reference
    to how [PyFloat.round] computes it.

    [nearest_even num den q]: the integer [q] is nearest to [num / den], and
    is the even neighbour when [num / den] lies half way between two
    integers. *)
Definition nearest_even (num den q : Z) : Prop :=
  (2 * Z.abs (num - q * den) <= den)%Z
  /\ ((2 * Z.abs (num - q * den) = den)%Z -> Z.even q = true).

(** [nearest_double num den s z]: [z] is the normal double of sign [s] whose
    magnitude [p * 2 ^ k] (with a full 53-bit [p]) is nearest to the positive
    quotient [num / den], ties to the even mantissa.  The last conjunct
    covers the lowest mantissa of a binade, where the doubles just below are
    spaced half as far apart. *)
Definition nearest_double (num den : Z) (s : bool) (z : float) : Prop :=
  exists (p : positive) (k : Z),
    Prim2SF z = S754_finite s p k
    /\ (2 ^ 52 <= Z.pos p < 2 ^ 53)%Z
    /\ nearest_even (num * 2 ^ Z.max 0 (- k)) (den * 2 ^ Z.max 0 k) (Z.pos p)
    /\ (Z.pos p = 2 ^ 52 ->
        (2 ^ 54 - 1) * (den * 2 ^ Z.max 0 k) <= 4 * (num * 2 ^ Z.max 0 (- k)))%Z.

(** [rounded_to places x z]: [z] is [x] rounded to [places] decimals.  For a
    finite non-zero [x] of magnitude [m * 2 ^ e], [n] is the integer nearest to
    [|x| * 10 ^ places] (ties to even), and [z] is the double nearest to
    [n / 10 ^ places] with the sign of [x], a zero of that sign when [n = 0].
    Zeros, infinities and NaN are left alone. *)
Definition rounded_to (places : nat) (x z : float) : Prop :=
  match Prim2SF x with
  | S754_finite s m e =>
      exists n : Z,
        nearest_even (Z.pos m * 10 ^ Z.of_nat places * 2 ^ Z.max 0 e) (2 ^ Z.max 0 (- e)) n
        /\ if (n =? 0)%Z then Prim2SF z = S754_zero s
           else nearest_double n (10 ^ Z.of_nat places) s z
  | _ => z = x
  end.

(** ** Request models *)

Record TaxRequest := { suma : float; cota_tva : float }.

(** ** [POST /calculate_tva] *)

Definition calculate_tva (request : TaxRequest) : value :=
  let tva := (suma request * (cota_tva request / 100))%float in
  let total := (suma request + tva)%float in
  VDict [("TVA", VFloat (PyFloat.round tva 2)); ("Total", VFloat (PyFloat.round total 2))].

(** ** Exceptions, results and the handler monad *)

(** What a handler can raise: FastAPI's [HTTPException], or an exception of
    a library that nothing caught ([message] is its [str(e)]). *)
Inductive exn : Type :=
  | HTTPException (status_code : Z) (detail : string)
  | Exception (message : string).

Inductive result (E A : Type) : Type :=
  | Return (a : A)
  | Raise (e : E).
Arguments Return {E A} a.
Arguments Raise {E A} e.

(** A row of [fake_users_db]: the dict
    [{"password": ..., "role": ..., "2fa_enabled": ...}]. *)
Record Credential := {
  stored_password : string;
  stored_role : string;
  stored_2fa_enabled : bool
}.

(** A call that left the process. *)
Inductive Call : Type :=
  | RequestsPost (url : option string) (json : value)
  | StripeSessionCreate (kwargs : value).

Record World := {
  fake_users_db : gmap string Credential;
  entropy : nat;            (* salts drawn so far *)
  clock : Z;                (* utcnow(), microseconds *)
  outbox : list Call;       (* calls made to outside services, oldest first *)
  logged : list string      (* logging.error records, oldest first *)
}.

Definition with_db (db : gmap string Credential) (w : World) : World :=
  {| fake_users_db := db; entropy := entropy w; clock := clock w;
     outbox := outbox w; logged := logged w |}.
Definition with_entropy (n : nat) (w : World) : World :=
  {| fake_users_db := fake_users_db w; entropy := n; clock := clock w;
     outbox := outbox w; logged := logged w |}.
Definition with_outbox (o : list Call) (w : World) : World :=
  {| fake_users_db := fake_users_db w; entropy := entropy w; clock := clock w;
     outbox := o; logged := logged w |}.
Definition with_logged (l : list string) (w : World) : World :=
  {| fake_users_db := fake_users_db w; entropy := entropy w; clock := clock w;
     outbox := outbox w; logged := l |}.

(** A computation that may change the world and either returns or raises.
    Library calls raise a message ([E := string]); handlers raise [exn]. *)
Definition M (E A : Type) : Type := World -> result E A * World.

Definition ret {E A} (a : A) : M E A := fun w => (Return a, w).
Definition raise {E A} (e : E) : M E A := fun w => (Raise e, w).
Definition bind {E A B} (m : M E A) (k : A -> M E B) : M E B :=
  fun w => match m w with
           | (Return a, w') => k a w'
           | (Raise e, w') => (Raise e, w')
           end.

(** [try: body / except Exception as e: handler e]. *)
Definition try_except {E E' A} (body : M E A) (handler : E -> M E' A) : M E' A :=
  fun w => match body w with
           | (Return a, w') => (Return a, w')
           | (Raise e, w') => handler e w'
           end.

(** A library call outside any [try]: its exception leaves the handler. *)
Definition uncaught {A} (m : M string A) : M exn A :=
  try_except m (fun e => raise (Exception e)).

Declare Scope py_scope.
Delimit Scope py_scope with py.
Notation "x <- c ;; k" := (bind c (fun x => k))
  (at level 100, c at next level, right associativity) : py_scope.
Notation "c ;;; k" := (bind c (fun _ => k))
  (at level 100, right associativity) : py_scope.
Local Open Scope py_scope.

Definition get_db {E} : M E (gmap string Credential) :=
  fun w => (Return (fake_users_db w), w).
Definition utcnow {E} : M E Z := fun w => (Return (clock w), w).
Definition logging_error {E} (msg : string) : M E unit :=
  fun w => (Return tt, with_logged (logged w ++ [msg]) w).

(** [datetime.timedelta(hours=h)], in microseconds. *)
Definition timedelta_hours (h : Z) : Z := (h * 3600 * 1000000)%Z.

(** ** Request models and configuration *)

Record User := { username : string; password : string; role : string }.
Record PaymentRequest := { user_id : string; plan : string }.

(** The module-level constants read from the environment at import. *)
Record Config := {
  SECRET_KEY : option string;
  STRIPE_API_KEY : option string;
  ANAF_API_URL : option string;
  EMAIL_API_URL : option string;
  SMS_API_URL : option string;
  WHATSAPP_API_URL : option string
}.

Definition load_config (getenv : string -> option string) : Config :=
  {| SECRET_KEY := getenv "SECRET_KEY";
     STRIPE_API_KEY := getenv "STRIPE_SECRET_KEY";
     ANAF_API_URL := getenv "ANAF_API_URL";
     EMAIL_API_URL := getenv "EMAIL_API_URL";
     SMS_API_URL := getenv "SMS_API_URL";
     WHATSAPP_API_URL := getenv "WHATSAPP_API_URL" |}.

(** The process after [import main]: the constants and the empty table. *)
Record App := { app_config : Config; app_world : World }.

(** Importing the module: every top-level statement of [main.py] in order.
    None of them inspects the values [os.getenv] returned. *)
Definition import_main (getenv : string -> option string)
    (entropy0 : nat) (clock0 : Z) : result exn App :=
  Return {| app_config := load_config getenv;
            app_world := {| fake_users_db := ∅; entropy := entropy0;
                            clock := clock0; outbox := []; logged := [] |} |}.

(** ** The libraries, at their interface *)

(** passlib's [CryptContext]: [hash] with the salt it draws made explicit,
    and [verify].  Like every library call, each returns or raises; what the
    library does inside is not part of the embedding. *)
Record CryptContext := {
  hash : string -> string -> result string string;   (* salt, secret *)
  verify : string -> string -> result string bool    (* secret, stored digest *)
}.

(** [stripe.checkout.Session]: only its [id] is read. *)
Record Session := { id : string }.

(** ** The handlers *)

Section Handlers.

(** [password_context = CryptContext(schemes=["bcrypt"], ...)], and the
    salt its [n]-th call of [hash] draws. *)
Variable password_context : CryptContext.
Variable urandom : nat -> string.

(** [jwt.encode(payload, key, algorithm)]. *)
Variable jwt_encode : value -> option string -> string -> result string string.

(** What [requests.post(url, json=...)] and
    [stripe.checkout.Session.create(...)] answer, given the calls
    made before. *)
Variable requests_reply : list Call -> option string -> value -> result string value.
Variable stripe_reply : list Call -> value -> result string Session.

(** [os.getenv] at request time, and the constants loaded at import. *)
Variable getenv : string -> option string.
Variable cfg : Config.

(** [password_context.hash(secret)]: a salt is drawn, then the digest is
    derived or the call raises; nothing around the call catches. *)
Definition password_context_hash (secret : string) : M exn string :=
  uncaught (fun w => (hash password_context (urandom (entropy w)) secret,
                      with_entropy (S (entropy w)) w)).

(** [password_context.verify(secret, digest)], outside any [try] as well. *)
Definition password_context_verify (secret digest : string) : M exn bool :=
  uncaught (fun w => (verify password_context secret digest, w)).

Definition requests_post (url : option string) (json : value) : M string value :=
  fun w => (requests_reply (outbox w) url json,
            with_outbox (outbox w ++ [RequestsPost url json]) w).

Definition stripe_checkout_Session_create (kwargs : value) : M string Session :=
  fun w => (stripe_reply (outbox w) kwargs,
            with_outbox (outbox w ++ [StripeSessionCreate kwargs]) w).

(** *** [POST /register] *)

(** The row [register] writes for [user] once the hasher returned
    [hashed_password]. *)
Definition new_credential (user : User) (hashed_password : string) : Credential :=
  {| stored_password := hashed_password;
     stored_role := role user;
     stored_2fa_enabled := false |}.

Definition register (user : User) : M exn value :=
  hashed_password <- password_context_hash (password user) ;;
  (fun w => (Return tt,
             with_db (<[username user :=
                        {| stored_password := hashed_password;
                           stored_role := role user;
                           stored_2fa_enabled := false |}]> (fake_users_db w)) w)) ;;;
  ret (VDict [("msg", VStr "User successfully registered")]).

(** *** [POST /login] *)

(** The payload [login] hands to [jwt.encode]. *)
Definition login_claims (user : User) (record : Credential) (now : Z) : value :=
  VDict [("sub", VStr (username user));
         ("role", VStr (stored_role record));
         ("exp", VDatetime (now + timedelta_hours 1))].

Definition invalid_credentials : exn := HTTPException 400 "Invalid credentials".

(** The first [match] is [user.username not in fake_users_db]; [or] only
    evaluates [verify] when the name is in the table. *)
Definition login (user : User) : M exn value :=
  db <- get_db ;;
  match db !! username user with
  | None => raise (HTTPException 400 "Invalid credentials")
  | Some record =>
      verified <- password_context_verify (password user) (stored_password record) ;;
      if negb verified
      then raise (HTTPException 400 "Invalid credentials")
      else
        now <- utcnow ;;
        token <- uncaught (fun w =>
                   (jwt_encode (login_claims user record now) (SECRET_KEY cfg) "HS256", w)) ;;
        ret (VDict [("access_token", VStr token)])
  end.

(** The last three lines of [login] in closed form: encode the claims under
    [SECRET_KEY] with HS256 and wrap the token. *)
Definition issue_token (user : User) (record : Credential) (w : World)
    : result exn value * World :=
  match jwt_encode (login_claims user record (clock w)) (SECRET_KEY cfg) "HS256" with
  | Return token => (Return (VDict [("access_token", VStr token)]), w)
  | Raise e => (Raise (Exception e), w)
  end.

(** *** [POST /subscribe] *)

Definition plan_prices : gmap string Z :=
  <["basic" := 100%Z]> (<["pro" := 200%Z]> (<["enterprise" := 500%Z]> ∅)).

(** The keyword arguments of [stripe.checkout.Session.create]. *)
Definition checkout_kwargs (name : string) (amount : Z) : value :=
  VDict [("payment_method_types", VList [VStr "card"]);
         ("line_items",
          VList [VDict [("price_data",
                         VDict [("currency", VStr "ron");
                                ("product_data", VDict [("name", VStr name)]);
                                ("unit_amount", VInt amount)]);
                        ("quantity", VInt 1)]]);
         ("mode", VStr "payment");
         ("success_url", VStr ("https://" +:+ str_opt (getenv "APP_DOMAIN") +:+ "/success"));
         ("cancel_url", VStr ("https://" +:+ str_opt (getenv "APP_DOMAIN") +:+ "/cancel"))].

Definition subscribe (request : PaymentRequest) : M exn value :=
  try_except
    (let amount := (default 100 (plan_prices !! plan request) * 100)%Z in
     session <- stripe_checkout_Session_create (checkout_kwargs (plan request) amount) ;;
     ret (VDict [("session_id", VStr (id session))]))
    (fun e =>
       logging_error ("Error processing subscription: " +:+ e) ;;;
       raise (HTTPException 500 e)).

(** *** [POST /send_notification] *)

Definition send_notification (email phone message : string) : M exn value :=
  try_except
    (requests_post (EMAIL_API_URL cfg)
       (VDict [("email", VStr email); ("message", VStr message)]) ;;;
     requests_post (SMS_API_URL cfg)
       (VDict [("phone", VStr phone); ("message", VStr message)]) ;;;
     requests_post (WHATSAPP_API_URL cfg)
       (VDict [("phone", VStr phone); ("message", VStr message)]) ;;;
     ret (VDict [("msg", VStr "Notification sent successfully")]))
    (fun e =>
       logging_error ("Error sending notification: " +:+ e) ;;;
       ret (VDict [("error", VStr ("Error sending notification: " +:+ e))])).

(** The three channel calls of [send_notification], in source order. *)
Definition notification_posts (email phone message : string)
    : list (option string * value) :=
  [ (EMAIL_API_URL cfg, VDict [("email", VStr email); ("message", VStr message)]);
    (SMS_API_URL cfg, VDict [("phone", VStr phone); ("message", VStr message)]);
    (WHATSAPP_API_URL cfg, VDict [("phone", VStr phone); ("message", VStr message)]) ].

Definition as_call (post : option string * value) : Call :=
  RequestsPost (fst post) (snd post).

End Handlers.

(** ** The handlers that call out and keep nothing *)

Record PDFRequest := { denumire_firma : string; cnp_cui : string; suma_tva : float }.

(** A method call on the [FPDF] object of [generate_pdf]. *)
Inductive PdfOp : Type :=
  | AddPage
  | SetFont (family : string) (size : Z)
  | Cell (width height : Z) (txt : string) (ln : bool) (align : string)
  | Output (name : string).

Section OtherHandlers.

Variable requests_reply : list Call -> option string -> value -> result string value.

(** [response.json()] on what [requests.post] returned. *)
Variable response_json : value -> result string value.

(** What the [FPDF] object answers to a call, given the calls it took
    before; [Output] writes the file. *)
Variable fpdf_reply : list PdfOp -> PdfOp -> result string unit.

(** [str(uuid.uuid4())] for the [n]-th draw of entropy, and how an f-string
    prints a float. *)
Variable uuid4 : nat -> string.
Variable float_str : float -> string.

Variable cfg : Config.

(** One call on the [pdf] object that took [done] already. *)
Definition pdf_call (done : list PdfOp) (op : PdfOp) : M string (list PdfOp) :=
  fun w => (match fpdf_reply done op with
            | Return _ => Return (done ++ [op])
            | Raise e => Raise e
            end, w).

Definition uuid_uuid4 : M string string :=
  fun w => (Return (uuid4 (entropy w)), with_entropy (S (entropy w)) w).

(** *** [POST /generate_pdf] *)

(** [FPDF()] starts the object with no call taken; every later line of the
    [try] block is one [pdf_call], the uuid draw, or the [return]. *)
Definition generate_pdf (request : PDFRequest) : M exn value :=
  try_except
    (pdf <- pdf_call [] AddPage ;;
     pdf <- pdf_call pdf (SetFont "Arial" 12) ;;
     pdf <- pdf_call pdf
              (Cell 200 10 ("TVA Declaration - " +:+ denumire_firma request) true "C") ;;
     pdf <- pdf_call pdf (Cell 200 10 ("CUI: " +:+ cnp_cui request) true "C") ;;
     pdf <- pdf_call pdf
              (Cell 200 10 ("Calculated VAT: " +:+ float_str (suma_tva request) +:+ " RON")
                 true "C") ;;
     u <- uuid_uuid4 ;;
     let filename := "tax_declaration_" +:+ u +:+ ".pdf" in
     pdf_call pdf (Output filename) ;;;
     ret (VDict [("msg", VStr "PDF successfully generated"); ("filename", VStr filename)]))
    (fun e =>
       logging_error ("Failed to generate PDF: " +:+ e) ;;;
       raise (HTTPException 500 "Failed to generate PDF")).

(** The calls [generate_pdf] makes on the object before it writes the file. *)
Definition pdf_page (request : PDFRequest) : list PdfOp :=
  [ AddPage;
    SetFont "Arial" 12;
    Cell 200 10 ("TVA Declaration - " +:+ denumire_firma request) true "C";
    Cell 200 10 ("CUI: " +:+ cnp_cui request) true "C";
    Cell 200 10 ("Calculated VAT: " +:+ float_str (suma_tva request) +:+ " RON") true "C" ].

(** *** [POST /submit_anaf] *)

Definition submit_anaf (data : value) : M exn value :=
  try_except
    (response <- requests_post requests_reply (ANAF_API_URL cfg) data ;;
     (fun w => (response_json response, w)))
    (fun e =>
       logging_error ("Error connecting to ANAF: " +:+ e) ;;;
       ret (VDict [("error", VStr ("Error connecting to ANAF: " +:+ e))])).

End OtherHandlers.

(** ** What the table always looks like *)

(** Every row holds a digest that [password_context.hash] made, under a
    salt drawn earlier, and has two-factor login off. *)
Definition table_hashed (password_context : CryptContext) (urandom : nat -> string)
    (w : World) : Prop :=
  forall (name : string) (row : Credential),
    fake_users_db w !! name = Some row ->
    stored_2fa_enabled row = false
    /\ exists (n : nat) (secret : string),
         n < entropy w
         /\ hash password_context (urandom n) secret = Return (stored_password row).

(** A computation that leaves the user table alone and never gives entropy
    back. *)
Definition reads_table {E A : Type} (m : M E A) : Prop :=
  forall w : World,
    fake_users_db (snd (m w)) = fake_users_db w
    /\ entropy w <= entropy (snd (m w)).

(** ** Session tokens *)

(** What [jwt.encode(payload, key, algorithm)] signs: the payload, under a
    key, with an algorithm. *)
Record SessionToken := {
  token_claims : value;
  token_key : option string;
  token_alg : string
}.

Definition claim_exp (claims : value) : option Z :=
  match claims with
  | VDict d => match dict_get "exp" d with
               | Some (VDatetime t) => Some t
               | _ => None
               end
  | _ => None
  end.

(** Modelled from the spec: the Session Issuer's [verify(token)] is not in
    [main.py] (no handler decodes a token).  Per the spec it "checks
    signature integrity against the secret key and checks [exp > now]", and
    returns the claims or invalid ([None]).  The signature matches when the
    token was signed under the active key. *)
Definition verify_token (active_key : option string) (now : Z)
    (token : SessionToken) : option value :=
  if bool_decide (token_key token = active_key) then
    match claim_exp (token_claims token) with
    | Some exp => if (now <? exp)%Z then Some (token_claims token) else None
    | None => None
    end
  else None.

(** ** The password hasher *)

(** Modelled from the spec: what stands behind [password_context] is
    passlib's bcrypt handler, a library and not code of [main.py].  This
    module follows the spec's Password Hasher: a salted digest that embeds
    its salt, and a [verify] that re-derives the checksum under that salt.
    The key derivation itself stays a parameter. *)
Module Bcrypt.

(** [strip_prefix p s]: what follows [p] in [s], when [s] starts with [p]. *)
Fixpoint strip_prefix (p s : string) : option string :=
  match p, s with
  | EmptyString, _ => Some s
  | String a p', String b s' => if decide (a = b) then strip_prefix p' s' else None
  | String _ _, EmptyString => None
  end.

(** [split_at n s]: the first [n] characters of [s] and the rest, when [s]
    has that many. *)
Fixpoint split_at (n : nat) (s : string) : option (string * string) :=
  match n, s with
  | O, _ => Some (EmptyString, s)
  | S n', String a s' =>
      match split_at n' s' with
      | Some (l, r) => Some (String a l, r)
      | None => None
      end
  | S _, EmptyString => None
  end.

Section WithChecksum.

(** The raw key derivation: salt and secret to checksum. *)
Variable checksum : string -> string -> string.

(** bcrypt's digest layout: identifier and cost, then a salt of 22
    characters, then the checksum. *)
Definition ident : string := "$2b$12$".
Definition salt_chars : nat := 22.

(** Modelled from the spec: passlib's bcrypt handler behind
    [password_context] is a library, not code of [main.py].  Per the
    spec, [hash] "produces a salted, irreversible digest"; the digest
    embeds its salt (here in bcrypt's layout: identifier and cost, the
    22-character salt, the checksum). *)
Definition hash (salt secret : string) : string :=
  ident +:+ salt +:+ checksum salt secret.

(** Modelled from the spec: the salt "embedded in [digest]", read back
    together with the checksum; [None] for a string that is no digest. *)
Definition parse (digest : string) : option (string * string) :=
  match strip_prefix ident digest with
  | Some rest => split_at salt_chars rest
  | None => None
  end.

(** Modelled from the spec: [verify] "recomputes using the salt embedded
    in [digest] and compares; never raises on malformed digests -
    returns false". *)
Definition verify (secret digest : string) : bool :=
  match parse digest with
  | Some (salt, stored) => bool_decide (checksum salt secret = stored)
  | None => false
  end.

Definition context : CryptContext :=
  Build_CryptContext (fun salt secret => Return (hash salt secret))
                     (fun secret digest => Return (verify secret digest)).

End WithChecksum.

End Bcrypt.

(** ** The hasher as passlib runs it *)

(** What passlib's bcrypt handler does with a secret and a stored string,
    beyond the spec's Password Hasher: it refuses a secret that holds a NUL
    character, bcrypt reads the first 72 bytes of the secret and no more,
    and a stored string that is no digest is not identified.  Strings are
    byte strings here.  The key derivation stays a parameter. *)
Module Passlib.

Fixpoint has_nul (s : string) : bool :=
  match s with
  | EmptyString => false
  | String c s' => if decide (c = Ascii.zero) then true else has_nul s'
  end.

(** The first [n] bytes of [s]. *)
Fixpoint take_bytes (n : nat) (s : string) : string :=
  match n, s with
  | S n', String c s' => String c (take_bytes n' s')
  | _, _ => EmptyString
  end.

Definition secret_bytes : nat := 72.

Section WithKdf.

Variable kdf : string -> string -> string.

Definition checksum (salt secret : string) : string :=
  kdf salt (take_bytes secret_bytes secret).

Definition hash (salt secret : string) : result string string :=
  if has_nul secret then Raise "bcrypt does not allow NULL bytes in password"
  else Return (Bcrypt.hash checksum salt secret).

Definition verify (secret digest : string) : result string bool :=
  match Bcrypt.parse digest with
  | None => Raise "hash could not be identified"
  | Some (salt, stored) =>
      if has_nul secret then Raise "bcrypt does not allow NULL bytes in password"
      else Return (bool_decide (checksum salt secret = stored))
  end.

Definition context : CryptContext := Build_CryptContext hash verify.

End WithKdf.

End Passlib.

(** ** Stand-ins for the outside world, to run the handlers on examples *)

Module Fixture.

(** A key derivation that keeps the secret readable. *)
Definition checksum (salt secret : string) : string := secret.

Definition context : CryptContext := Bcrypt.context checksum.

Definition urandom (n : nat) : string :=
  if Nat.even n then "AAAAAAAAAAAAAAAAAAAAAA" else "BBBBBBBBBBBBBBBBBBBBBB".

Definition jwt_encode (payload : value) (key : option string) (alg : string)
    : result string string :=
  match key with
  | Some k => Return ("jwt." +:+ alg +:+ "." +:+ k)
  | None => Raise "Expected a string value"
  end.

(** The SMS gateway is down; everything else answers. *)
Definition requests_reply (before : list Call) (url : option string) (json : value)
    : result string value :=
  if decide (url = Some "https://sms.example/send")
  then Raise "connection refused" else Return VNone.

Definition stripe_reply (before : list Call) (kwargs : value) : result string Session :=
  Return {| id := "cs_test_1" |}.

Definition getenv (name : string) : option string :=
  if decide (name = "SECRET_KEY") then Some "s3cret"
  else if decide (name = "EMAIL_API_URL") then Some "https://mail.example/send"
  else if decide (name = "SMS_API_URL") then Some "https://sms.example/send"
  else None.

Definition no_env (name : string) : option string := None.

Definition cfg : Config := load_config getenv.

Definition world0 : World :=
  {| fake_users_db := ∅; entropy := 0; clock := 1700000000000000;
     outbox := []; logged := [] |}.

Definition ana : User := {| username := "ana"; password := "parola1"; role := "user" |}.
Definition ana' : User := {| username := "ana"; password := "parola2"; role := "admin" |}.

(** The world once [ana] has registered. *)
Definition world1 : World := snd (register context urandom ana world0).

(** The process started with an empty environment. *)
Definition keyless_app : App :=
  {| app_config := load_config no_env; app_world := world0 |}.

(** Everything outside answers. *)
Definition requests_ok (before : list Call) (url : option string) (json : value)
    : result string value :=
  Return (VStr "{}").

Definition response_json (response : value) : result string value :=
  Return (VDict []).

Definition fpdf_reply (done : list PdfOp) (op : PdfOp) : result string unit :=
  Return tt.

Definition uuid4 (n : nat) : string :=
  if Nat.even n then "0b9f7c2e-0000-4000-8000-00000000000a"
  else "0b9f7c2e-0000-4000-8000-00000000000b".

Definition float_str (x : float) : string := "19.0".

Definition bon : PDFRequest :=
  {| denumire_firma := "Firma SRL"; cnp_cui := "RO123"; suma_tva := 19 |}.

Definition dan : User := {| username := "dan"; password := "parola3"; role := "user" |}.

(** A reply whose body is not JSON. *)
Definition response_not_json (response : value) : result string value :=
  Raise "Expecting value: line 1 column 1 (char 0)".

(** After the first PDF the disk is full. *)
Definition fpdf_disk_full (done : list PdfOp) (op : PdfOp) : result string unit :=
  match op with
  | Output _ => Raise "No space left on device"
  | _ => Return tt
  end.



End Fixture.

(** * Properties *)

(** ** Tax computation *)

(** [rne_div a b] is within half a unit of [a / b]. *)
Lemma rne_div_nearest (a b : Z) :
  (0 < b)%Z -> (Z.abs (2 * (a - PyFloat.rne_div a b * b)) <= b)%Z.
Proof.
  intros Hb. unfold PyFloat.rne_div.
  pose proof (Z.div_mod a b ltac:(lia)) as Hdm.
  pose proof (Z.mod_pos_bound a b Hb) as Hr.
  destruct (Z.compare_spec (2 * (a mod b)) b) as [He | Hl | Hg];
    [destruct (Z.even (a / b)) | | ]; nia.
Qed.

(** On an exact tie [rne_div] picks the even neighbour. *)
Lemma rne_div_tie_even (a b : Z) :
  (0 < b)%Z -> (2 * (a mod b) = b)%Z -> Z.even (PyFloat.rne_div a b) = true.
Proof.
  intros Hb Ht. unfold PyFloat.rne_div. rewrite Ht, Z.compare_refl.
  destruct (Z.even (a / b)) eqn:E; [exact E |].
  rewrite Z.even_add, E. reflexivity.
Qed.

(** Values that are not finite and non-zero round to themselves. *)
Lemma round_special (x : float) (ndigits : nat) :
  (forall s m e, Prim2SF x <> S754_finite s m e) -> PyFloat.round x ndigits = x.
Proof.
  intros H. unfold PyFloat.round.
  destruct (Prim2SF x) as [ | | | s m e]; try reflexivity.
  destruct (H s m e eq_refl).
Qed.

Section RoundingFacts.

Local Open Scope Z_scope.

(** [rne_div a b] is the integer nearest to [a / b], ties to even. *)
Lemma rne_div_spec (a b : Z) : 0 < b -> nearest_even a b (PyFloat.rne_div a b).
Proof.
  intros Hb. unfold nearest_even, PyFloat.rne_div.
  pose proof (Z.div_mod a b ltac:(lia)) as Hdm.
  pose proof (Z.mod_pos_bound a b Hb) as Hr.
  destruct (Z.compare_spec (2 * (a mod b)) b) as [He | Hl | Hg].
  - destruct (Z.even (a / b)) eqn:Hev.
    + split; [nia | intros _; exact Hev].
    + split; [nia |]. intros _. rewrite Z.even_add, Hev. reflexivity.
  - split; [nia | intros Ht; nia].
  - split; [nia | intros Ht; nia].
Qed.

(** The bit length of a mantissa, as the float library counts it. *)
Lemma digits2_size (p : positive) : digits2_pos p = Pos.size p.
Proof. induction p; simpl; congruence. Qed.

(** A mantissa in [[2^52, 2^53)] has 53 bits. *)
Lemma size_53 (p : positive) : 2 ^ 52 <= Z.pos p < 2 ^ 53 -> Pos.size p = 53%positive.
Proof.
  intros [Hlo Hhi].
  pose proof (Pos.size_gt p) as Hgt. pose proof (Pos.size_le p) as Hle.
  apply Pos2Z.pos_lt_pos in Hgt. rewrite Pos2Z.inj_pow in Hgt.
  assert (Hle' : (Z.pos (2 ^ Pos.size p) <= Z.pos p~0)) by exact Hle.
  rewrite Pos2Z.inj_pow in Hle'. rewrite Pos2Z.inj_xO in Hle'.
  destruct (Z.lt_trichotomy (Z.pos (Pos.size p)) 53) as [Hlt | [Heq | Hgt']].
  - assert (2 ^ Z.pos (Pos.size p) <= 2 ^ 52) by (apply Z.pow_le_mono_r; lia). lia.
  - by injection Heq.
  - assert (2 ^ 54 <= 2 ^ Z.pos (Pos.size p)) by (apply Z.pow_le_mono_r; lia). lia.
Qed.

(** A 53-bit mantissa with an exponent in range is a double. *)
Lemma valid_53 (s : bool) (p : positive) (k : Z) :
  2 ^ 52 <= Z.pos p < 2 ^ 53 -> -1074 <= k <= 971 ->
  valid_binary (S754_finite s p k) = true.
Proof.
  intros Hp Hk. unfold valid_binary, bounded, canonical_mantissa, fexp.
  rewrite digits2_size, (size_53 p Hp).
  apply andb_true_intro. split.
  - apply Z.eqb_eq. unfold SpecFloat.emin, prec, emax. lia.
  - apply Z.leb_le. unfold prec, emax. lia.
Qed.

(** Mantissa and exponent of a double are bounded, and the mantissa of a
    double with a non-negative exponent has all 53 bits. *)
Lemma size_of_valid (s : bool) (m : positive) (e : Z) :
  valid_binary (S754_finite s m e) = true ->
  Z.pos m < 2 ^ 53 /\ e <= 971 /\ (0 <= e -> 2 ^ 52 <= Z.pos m).
Proof.
  unfold valid_binary, bounded, canonical_mantissa, fexp.
  rewrite digits2_size. intros H. apply andb_prop in H as [Hc Hb].
  apply Z.eqb_eq in Hc. apply Z.leb_le in Hb.
  unfold SpecFloat.emin, prec, emax in *.
  pose proof (Pos.size_gt m) as Hgt. pose proof (Pos.size_le m) as Hle.
  apply Pos2Z.pos_lt_pos in Hgt. rewrite Pos2Z.inj_pow in Hgt.
  assert (Hle' : (Z.pos (2 ^ Pos.size m) <= Z.pos m~0)) by exact Hle.
  rewrite Pos2Z.inj_pow, Pos2Z.inj_xO in Hle'.
  assert (Hsz : Z.pos (Pos.size m) <= 53) by lia.
  split; [| split; [lia |]].
  - assert (2 ^ Z.pos (Pos.size m) <= 2 ^ 53) by (apply Z.pow_le_mono_r; lia). lia.
  - intros He. assert (Z.pos (Pos.size m) = 53) by lia.
    rewrite H in Hle'. lia.
Qed.

(** Powers of two add their exponents. *)
Lemma pow2_split (a b : Z) : 0 <= a -> 0 <= b -> 2 ^ (a + b) = 2 ^ a * 2 ^ b.
Proof. intros. by apply Z.pow_add_r. Qed.

(** [log2_quot n d] is the binade of [n / d]:
    [2 ^ l <= n / d < 2 ^ (l + 1)], written without fractions. *)
Lemma log2_quot_spec (n d : Z) :
  0 < n -> 0 < d ->
  let l := PyFloat.log2_quot n d in
  d * 2 ^ Z.max 0 l <= n * 2 ^ Z.max 0 (- l)
  /\ n * 2 ^ Z.max 0 (- (l + 1)) < d * 2 ^ Z.max 0 (l + 1).
Proof.
  intros Hn Hd. unfold PyFloat.log2_quot.
  destruct (Z.log2_spec n Hn) as [HA1 HA2]. destruct (Z.log2_spec d Hd) as [HB1 HB2].
  pose proof (Z.log2_nonneg n) as Ha. pose proof (Z.log2_nonneg d) as Hb.
  set (a := Z.log2 n) in *. set (b := Z.log2 d) in *.
  rewrite Z.pow_succ_r in HA2, HB2 by assumption.
  set (A := 2 ^ a) in *. set (B := 2 ^ b) in *.
  assert (HA : 0 < A) by (by apply Z.pow_pos_nonneg).
  assert (HB : 0 < B) by (by apply Z.pow_pos_nonneg).
  destruct (Z.leb_spec 0 (a - b)) as [Hl0 | Hl0].
  - assert (Hab : A = B * 2 ^ (a - b)).
    { subst A B. rewrite <- pow2_split by lia. f_equal. lia. }
    destruct (Z.leb_spec (d * 2 ^ (a - b)) n) as [Ht | Ht]; cbv zeta.
    + rewrite (Z.max_r 0 (a - b)), (Z.max_l 0 (- (a - b))), (Z.max_l 0 (- (a - b + 1))),
        (Z.max_r 0 (a - b + 1)) by lia.
      rewrite Z.pow_0_r, (pow2_split (a - b) 1) by lia. change (2 ^ 1) with 2.
      set (P := 2 ^ (a - b)) in *.
      assert (0 < P) by (subst P; by apply Z.pow_pos_nonneg).
      assert (B * P <= d * P) by (apply Z.mul_le_mono_nonneg_r; lia).
      lia.
    + replace (a - b - 1 + 1) with (a - b) by lia.
      rewrite (Z.max_l 0 (- (a - b))), (Z.max_r 0 (a - b)) by lia. rewrite Z.pow_0_r.
      split; [| lia].
      destruct (Z.eq_dec (a - b) 0) as [H0 | H0].
      * rewrite H0 in *. change (2 ^ 0) with 1 in *.
        change (Z.max 0 (0 - 1)) with 0. change (Z.max 0 (- (0 - 1))) with 1.
        change (2 ^ 0) with 1. change (2 ^ 1) with 2. lia.
      * rewrite (Z.max_r 0 (a - b - 1)), (Z.max_l 0 (- (a - b - 1))) by lia.
        rewrite Z.pow_0_r.
        assert (HP' : 2 ^ (a - b) = 2 * 2 ^ (a - b - 1)).
        { rewrite <- Z.pow_succ_r by lia. f_equal. lia. }
        set (P' := 2 ^ (a - b - 1)) in *.
        assert (0 < P') by (subst P'; apply Z.pow_pos_nonneg; lia).
        assert (d * P' + 1 <= 2 * B * P') by nia.
        lia.
  - assert (Hab : B = A * 2 ^ (- (a - b))).
    { subst A B. rewrite <- pow2_split by lia. f_equal. lia. }
    destruct (Z.leb_spec d (n * 2 ^ (- (a - b)))) as [Ht | Ht]; cbv zeta.
    + rewrite (Z.max_l 0 (a - b)), (Z.max_r 0 (- (a - b))), (Z.max_l 0 (a - b + 1)),
        (Z.max_r 0 (- (a - b + 1))) by lia.
      rewrite Z.pow_0_r. split; [lia |].
      assert (HP' : 2 ^ (- (a - b)) = 2 * 2 ^ (- (a - b + 1))).
      { rewrite <- Z.pow_succ_r by lia. f_equal. lia. }
      set (P' := 2 ^ (- (a - b + 1))) in *.
      assert (0 < P') by (subst P'; apply Z.pow_pos_nonneg; lia).
      assert (n * P' + 1 <= 2 * A * P') by nia.
      lia.
    + replace (a - b - 1 + 1) with (a - b) by lia.
      rewrite (Z.max_l 0 (a - b)), (Z.max_r 0 (- (a - b))), (Z.max_l 0 (a - b - 1)),
        (Z.max_r 0 (- (a - b - 1))) by lia.
      rewrite Z.pow_0_r. split; [| lia].
      replace (- (a - b - 1)) with (Z.succ (- (a - b))) by lia.
      rewrite Z.pow_succ_r by lia.
      set (P := 2 ^ (- (a - b))) in *.
      assert (0 < P) by (subst P; apply Z.pow_pos_nonneg; lia).
      assert (A * P <= n * P) by (apply Z.mul_le_mono_nonneg_r; lia).
      lia.
Qed.

(** A comparison of two scaled integers is kept when both exponents move by
    the same amount. *)
Lemma pow2_shift (A B a b a' b' : Z) :
  0 <= a -> 0 <= b -> 0 <= a' -> 0 <= b' -> a + b' = a' + b ->
  (A * 2 ^ a <= B * 2 ^ b -> A * 2 ^ a' <= B * 2 ^ b')
  /\ (A * 2 ^ a < B * 2 ^ b -> A * 2 ^ a' < B * 2 ^ b').
Proof.
  intros Ha Hb Ha' Hb' Heq.
  assert (Hpow : 2 ^ a * 2 ^ b' = 2 ^ a' * 2 ^ b) by (rewrite <- !pow2_split by lia; by f_equal).
  assert (0 < 2 ^ a) by (by apply Z.pow_pos_nonneg).
  assert (0 < 2 ^ b) by (by apply Z.pow_pos_nonneg).
  assert (0 < 2 ^ a') by (by apply Z.pow_pos_nonneg).
  assert (0 < 2 ^ b') by (by apply Z.pow_pos_nonneg).
  assert (HL : A * 2 ^ a' * 2 ^ b = A * 2 ^ a * 2 ^ b') by (rewrite <- !Z.mul_assoc; f_equal; lia).
  assert (HR : B * 2 ^ b' * 2 ^ b = B * 2 ^ b * 2 ^ b') by lia.
  split; intros H3.
  - apply (Z.mul_le_mono_pos_r _ _ (2 ^ b)); [assumption |]. rewrite HL, HR.
    by apply Z.mul_le_mono_pos_r.
  - apply (Z.mul_lt_mono_pos_r (2 ^ b)); [assumption |]. rewrite HL, HR.
    by apply Z.mul_lt_mono_pos_r.
Qed.

(** At the exponent [log2_quot n d - 52] the quotient [n / d] has a 53-bit
    integer part. *)
Lemma log2_quot_window (n d : Z) (k : Z) :
  0 < n -> 0 < d -> k = PyFloat.log2_quot n d - 52 ->
  2 ^ 52 * (d * 2 ^ Z.max 0 k) <= n * 2 ^ Z.max 0 (- k)
  /\ n * 2 ^ Z.max 0 (- k) < 2 ^ 53 * (d * 2 ^ Z.max 0 k).
Proof.
  intros Hn Hd Hk. destruct (log2_quot_spec n d Hn Hd) as [Hlo Hhi].
  set (l := PyFloat.log2_quot n d) in *. cbv zeta in Hlo, Hhi.
  split.
  - replace (2 ^ 52 * (d * 2 ^ Z.max 0 k)) with (d * 2 ^ (Z.max 0 k + 52))
      by (rewrite pow2_split by lia; lia).
    refine (proj1 (pow2_shift d n (Z.max 0 l) (Z.max 0 (- l)) _ _ _ _ _ _ _) Hlo); lia.
  - replace (2 ^ 53 * (d * 2 ^ Z.max 0 k)) with (d * 2 ^ (Z.max 0 k + 53))
      by (rewrite pow2_split by lia; lia).
    refine (proj2 (pow2_shift n d (Z.max 0 (- (l + 1))) (Z.max 0 (l + 1)) _ _ _ _ _ _ _) Hhi); lia.
Qed.

(** The nearest integer of a quotient within [[lo, hi)] is within
    [[lo, hi]]. *)
Lemma nearest_even_window (N D q lo hi : Z) :
  0 < D -> nearest_even N D q -> lo * D <= N -> N < hi * D -> lo <= q <= hi.
Proof.
  intros HD [Hq _] Hlo Hhi. split.
  - destruct (Z.le_gt_cases lo q) as [| Hlt]; [assumption | exfalso].
    assert ((q + 1) * D <= lo * D) by (apply Z.mul_le_mono_nonneg_r; lia). lia.
  - destruct (Z.le_gt_cases q hi) as [| Hlt]; [assumption | exfalso].
    assert ((hi + 1) * D <= q * D) by (apply Z.mul_le_mono_nonneg_r; lia). lia.
Qed.

(** [ldexp] of a 53-bit integer is the double with that mantissa. *)
Lemma ldexp_mantissa (q e : Z) :
  2 ^ 52 <= q < 2 ^ 53 -> -1074 <= e <= 971 ->
  Prim2SF (Z.ldexp (PrimFloat.of_uint63 (Uint63.of_Z q)) e) = S754_finite false (Z.to_pos q) e.
Proof.
  intros Hq He.
  assert (Hp : Z.pos (Z.to_pos q) = q) by (apply Z2Pos.id; lia).
  rewrite <- Hp at 1.
  change (Prim2SF (SF2Prim (S754_finite false (Z.to_pos q) e)) = S754_finite false (Z.to_pos q) e).
  apply Prim2SF_SF2Prim, valid_53; [rewrite Hp |]; lia.
Qed.

(** When the mantissa rounds up to [2 ^ 53], [ldexp] gives the first double
    of the next binade. *)
Lemma ldexp_carry (e : Z) :
  -1074 <= e + 1 <= 971 ->
  Prim2SF (Z.ldexp (PrimFloat.of_uint63 (Uint63.of_Z (2 ^ 53))) e)
  = S754_finite false (Z.to_pos (2 ^ 52)) (e + 1).
Proof.
  intros He.
  rewrite <- (ldexp_mantissa (2 ^ 52) (e + 1)) by lia.
  rewrite !Z_ldexp_spec.
  replace (Prim2SF (PrimFloat.of_uint63 (Uint63.of_Z (2 ^ 53))))
    with (S754_finite false (Z.to_pos (2 ^ 52)) 1) by (vm_compute; reflexivity).
  replace (Prim2SF (PrimFloat.of_uint63 (Uint63.of_Z (2 ^ 52))))
    with (S754_finite false (Z.to_pos (2 ^ 52)) 0) by (vm_compute; reflexivity).
  unfold SFldexp. f_equal. lia.
Qed.

(** For [n / d] in the normal range, [nearest_float n d] is the double
    nearest to [n / d]. *)
Lemma nearest_float_spec (n d : Z) :
  0 < n -> 0 < d ->
  d <= n * 2 ^ 1022 -> 2 * n < (2 ^ 54 - 1) * (d * 2 ^ 971) ->
  nearest_double n d false (PyFloat.nearest_float n d).
Proof.
  intros Hn Hd Hmin Hmax. unfold PyFloat.nearest_float.
  destruct (Z.eqb_spec n 0) as [? | _]; [lia |]. cbv zeta.
  destruct (log2_quot_spec n d Hn Hd) as [_ Hl].
  set (k := PyFloat.log2_quot n d - 52) in *.
  destruct (log2_quot_window n d k Hn Hd eq_refl) as [Hlo Hhi].
  assert (Hk0 : -1074 <= k).
  { destruct (Z.le_gt_cases (-1074) k) as [| Hlt]; [assumption | exfalso].
    cbv zeta in Hl. rewrite (Z.max_r 0 (- (_ + 1))), (Z.max_l 0 (_ + 1)) in Hl by lia.
    rewrite Z.pow_0_r in Hl.
    assert (2 ^ 1022 <= 2 ^ (- (PyFloat.log2_quot n d + 1))) by (apply Z.pow_le_mono_r; lia).
    assert (n * 2 ^ 1022 <= n * 2 ^ (- (PyFloat.log2_quot n d + 1)))
      by (apply Z.mul_le_mono_nonneg_l; lia).
    lia. }
  clear Hl.
  assert (Hk1 : k <= 971).
  { destruct (Z.le_gt_cases k 971) as [| Hlt]; [assumption | exfalso].
    rewrite (Z.max_r 0 k), (Z.max_l 0 (- k)) in Hlo by lia. rewrite Z.pow_0_r in Hlo.
    assert (2 ^ 972 <= 2 ^ k) by (apply Z.pow_le_mono_r; lia).
    assert (d * 2 ^ 972 <= d * 2 ^ k) by (apply Z.mul_le_mono_nonneg_l; lia).
    change (2 ^ 972) with (2 * 2 ^ 971) in *. lia. }
  set (N := n * 2 ^ Z.max 0 (- k)) in *. set (D := d * 2 ^ Z.max 0 k) in *.
  assert (HD : 0 < D) by (subst D; apply Z.mul_pos_pos; [lia | apply Z.pow_pos_nonneg; lia]).
  assert (Hq : (if 0 <=? k then PyFloat.rne_div n (d * 2 ^ k)
                else PyFloat.rne_div (n * 2 ^ (- k)) d) = PyFloat.rne_div N D).
  { subst N D. destruct (Z.leb_spec 0 k).
    - rewrite (Z.max_l 0 (- k)), (Z.max_r 0 k) by lia. by rewrite Z.pow_0_r, Z.mul_1_r.
    - rewrite (Z.max_r 0 (- k)), (Z.max_l 0 k) by lia. by rewrite Z.pow_0_r, Z.mul_1_r. }
  rewrite Hq. pose proof (rne_div_spec N D HD) as Hne.
  set (q := PyFloat.rne_div N D) in *.
  pose proof (nearest_even_window N D q (2 ^ 52) (2 ^ 53) HD Hne Hlo Hhi) as Hwin.
  destruct (Z.eq_dec q (2 ^ 53)) as [Htop | Htop].
  - exists (Z.to_pos (2 ^ 52)), (k + 1).
    assert (Hp : Z.pos (Z.to_pos (2 ^ 52)) = 2 ^ 52) by reflexivity.
    rewrite Hp.
    destruct Hne as [Hne _]. rewrite Htop in Hne.
    assert (Hne' : 2 * (2 ^ 53 * D - N) <= D) by lia.
    assert (Hk2 : k < 971).
    { destruct (Z.lt_ge_cases k 971) as [| Hge]; [assumption | exfalso].
      assert (k = 971) by lia. subst N D.
      rewrite (Z.max_r 0 k), (Z.max_l 0 (- k)), Z.pow_0_r in Hne' by lia.
      replace (2 ^ k) with (2 ^ 971) in Hne' by (f_equal; lia). lia. }
    set (N' := n * 2 ^ Z.max 0 (- (k + 1))). set (D' := d * 2 ^ Z.max 0 (k + 1)).
    assert (HD' : 0 < D')
      by (subst D'; apply Z.mul_pos_pos; [lia | apply Z.pow_pos_nonneg; lia]).
    assert (Hcross : N * D' = 2 * (N' * D)).
    { subst N D N' D'.
      transitivity (n * d * (2 ^ Z.max 0 (- k) * 2 ^ Z.max 0 (k + 1))); [lia |].
      transitivity (n * d * (2 ^ 1 * 2 ^ Z.max 0 (- (k + 1)) * 2 ^ Z.max 0 k));
        [| change (2 ^ 1) with 2; lia].
      f_equal. rewrite <- !pow2_split by lia. f_equal. lia. }
    assert (Hm : 2 * (2 ^ 53 * D - N) * D' <= D * D')
      by (apply Z.mul_le_mono_nonneg_r; lia).
    assert (Hm2 : N * D' < 2 ^ 53 * D * D') by (apply Z.mul_lt_mono_pos_r; lia).
    assert (Hquarter : 4 * (2 ^ 52 * D' - N') <= D').
    { apply (Z.mul_le_mono_pos_l _ _ D); [assumption |]. lia. }
    assert (Hbelow : N' < 2 ^ 52 * D').
    { apply (Z.mul_lt_mono_pos_l D); [assumption |]. lia. }
    split; [| split; [| split; [split |]]].
    + rewrite Htop. apply ldexp_carry. lia.
    + lia.
    + lia.
    + lia.
    + intros _. lia.
  - exists (Z.to_pos q), k.
    assert (Hp : Z.pos (Z.to_pos q) = q) by (apply Z2Pos.id; lia).
    rewrite Hp.
    split; [| split; [| split]].
    + apply ldexp_mantissa; lia.
    + lia.
    + exact Hne.
    + intros _. lia.
Qed.

(** [round(x, 2)] is [x] rounded to 2 decimals, for every float [x]. *)
Lemma round_rounded (x : float) : rounded_to 2 x (PyFloat.round x 2).
Proof.
  unfold rounded_to, PyFloat.round.
  pose proof (Prim2SF_valid x) as Hvalid.
  destruct (Prim2SF x) as [s0 | s0 | | s m e] eqn:Hx; try reflexivity.
  destruct (size_of_valid s m e Hvalid) as (Hm & He & Hnorm).
  change (10 ^ Z.of_nat 2) with 100. cbv zeta.
  set (n := if 0 <=? e then Z.pos m * 2 ^ e * 100
            else PyFloat.rne_div (Z.pos m * 100) (2 ^ (- e))).
  assert (Hrange : nearest_even (Z.pos m * 100 * 2 ^ Z.max 0 e) (2 ^ Z.max 0 (- e)) n
                   /\ 0 <= n /\ 2 * n < (2 ^ 54 - 1) * (100 * 2 ^ 971)).
  { subst n. destruct (Z.leb_spec 0 e) as [Hpos | Hneg].
    - assert (HE : 0 < 2 ^ e) by (by apply Z.pow_pos_nonneg).
      assert (HE' : 2 ^ e <= 2 ^ 971) by (apply Z.pow_le_mono_r; lia).
      rewrite (Z.max_r 0 e), (Z.max_l 0 (- e)) by lia. rewrite Z.pow_0_r.
      split; [| split].
      + replace (Z.pos m * 100 * 2 ^ e - Z.pos m * 2 ^ e * 100 * 1) with 0 by lia.
        split; simpl; lia.
      + nia.
      + assert (2 * Z.pos m * 2 ^ e <= (2 ^ 54 - 2) * 2 ^ e)
          by (apply Z.mul_le_mono_nonneg_r; lia).
        assert ((2 ^ 54 - 2) * 2 ^ e <= (2 ^ 54 - 2) * 2 ^ 971)
          by (apply Z.mul_le_mono_nonneg_l; lia).
        lia.
    - assert (HE : 2 <= 2 ^ (- e)).
      { change 2 with (2 ^ 1) at 1. apply Z.pow_le_mono_r; lia. }
      pose proof (rne_div_spec (Z.pos m * 100) (2 ^ (- e)) ltac:(lia)) as Hn.
      set (n := PyFloat.rne_div (Z.pos m * 100) (2 ^ (- e))) in *.
      rewrite (Z.max_l 0 e), (Z.max_r 0 (- e)) by lia. rewrite Z.pow_0_r, Z.mul_1_r.
      split; [exact Hn |]. destruct Hn as [Hn _]. split.
      + destruct (Z.le_gt_cases 0 n) as [| Hlt]; [assumption | exfalso].
        assert (n * 2 ^ (- e) <= (- 1) * 2 ^ (- e)) by (apply Z.mul_le_mono_nonneg_r; lia).
        lia.
      + assert (n <= 100 * 2 ^ 52); [| lia].
        destruct (Z.le_gt_cases n (100 * 2 ^ 52)) as [| Hlt]; [assumption | exfalso].
        assert ((100 * 2 ^ 52 + 1) * 2 ^ (- e) <= n * 2 ^ (- e))
          by (apply Z.mul_le_mono_nonneg_r; lia).
        assert (100 * 2 ^ 52 * 2 <= 100 * 2 ^ 52 * 2 ^ (- e))
          by (apply Z.mul_le_mono_nonneg_l; lia).
        lia. }
  destruct Hrange as (Hn & Hn0 & Hmax).
  exists n. split; [exact Hn |].
  destruct (Z.eqb_spec n 0) as [H0 | H0].
  - rewrite H0. destruct s; reflexivity.
  - destruct (nearest_float_spec n 100 ltac:(lia) ltac:(lia) ltac:(lia) Hmax)
      as (p & k & Hz & Hp & Hnear & Hbin).
    exists p, k. split; [| exact (conj Hp (conj Hnear Hbin))].
    destruct s; [| exact Hz]. by rewrite opp_spec, Hz.
Qed.

(** A quotient has one nearest integer under ties-to-even. *)
Lemma nearest_even_unique (N D q1 q2 : Z) :
  0 < D -> nearest_even N D q1 -> nearest_even N D q2 -> q1 = q2.
Proof.
  intros HD [H1 T1] [H2 T2].
  assert (Hclose : q1 - q2 <= 1 /\ q2 - q1 <= 1).
  { split.
    - destruct (Z.le_gt_cases (q1 - q2) 1) as [| Hlt]; [assumption | exfalso].
      assert (2 * D <= (q1 - q2) * D) by (apply Z.mul_le_mono_nonneg_r; lia). lia.
    - destruct (Z.le_gt_cases (q2 - q1) 1) as [| Hlt]; [assumption | exfalso].
      assert (2 * D <= (q2 - q1) * D) by (apply Z.mul_le_mono_nonneg_r; lia). lia. }
  destruct (Z.eq_dec q1 q2) as [| Hne]; [assumption | exfalso].
  assert (Hcase : q2 = q1 + 1 \/ q1 = q2 + 1) by lia.
  destruct Hcase as [-> | ->].
  - specialize (T1 ltac:(lia)). specialize (T2 ltac:(lia)).
    rewrite Z.even_add, T1 in T2. discriminate.
  - specialize (T1 ltac:(lia)). specialize (T2 ltac:(lia)).
    rewrite Z.even_add, T2 in T1. discriminate.
Qed.

(** A positive denominator stays positive when scaled. *)
Lemma scaled_pos (d k : Z) : 0 < d -> 0 < d * 2 ^ Z.max 0 k.
Proof. intros Hd. apply Z.mul_pos_pos; [lia | apply Z.pow_pos_nonneg; lia]. Qed.

(** Two doubles nearest to the same quotient cannot lie in different
    binades. *)
Lemma nearest_double_exponent (n d : Z) (p1 p2 : positive) (k1 k2 : Z) :
  0 < d ->
  2 ^ 52 <= Z.pos p1 < 2 ^ 53 ->
  nearest_even (n * 2 ^ Z.max 0 (- k1)) (d * 2 ^ Z.max 0 k1) (Z.pos p1) ->
  2 ^ 52 <= Z.pos p2 < 2 ^ 53 ->
  nearest_even (n * 2 ^ Z.max 0 (- k2)) (d * 2 ^ Z.max 0 k2) (Z.pos p2) ->
  (Z.pos p2 = 2 ^ 52 ->
   (2 ^ 54 - 1) * (d * 2 ^ Z.max 0 k2) <= 4 * (n * 2 ^ Z.max 0 (- k2))) ->
  ~ k1 < k2.
Proof.
  intros Hd Hp1 [H1 T1] Hp2 [H2 _] Hbin Hlt.
  pose proof (scaled_pos d k1 Hd) as HD1. pose proof (scaled_pos d k2 Hd) as HD2.
  set (N1 := n * 2 ^ Z.max 0 (- k1)) in *. set (D1 := d * 2 ^ Z.max 0 k1) in *.
  set (N2 := n * 2 ^ Z.max 0 (- k2)) in *. set (D2 := d * 2 ^ Z.max 0 k2) in *.
  assert (HA : 2 * N1 < (2 ^ 54 - 1) * D1).
  { destruct (Z.eq_dec (Z.pos p1) (2 ^ 53 - 1)) as [Hodd | Hsmall].
    - destruct (Z.eq_dec (2 * Z.abs (N1 - Z.pos p1 * D1)) D1) as [Htie | Hno].
      + specialize (T1 Htie). rewrite Hodd in T1. discriminate.
      + rewrite Hodd in *. lia.
    - assert ((Z.pos p1 + 1) * D1 <= (2 ^ 53 - 1) * D1)
        by (apply Z.mul_le_mono_nonneg_r; lia).
      lia. }
  assert (HB : (2 ^ 54 - 1) * D2 <= 4 * N2).
  { destruct (Z.eq_dec (Z.pos p2) (2 ^ 52)) as [Hlow | Hhigh]; [by apply Hbin |].
    assert ((2 ^ 52 + 1) * D2 <= Z.pos p2 * D2) by (apply Z.mul_le_mono_nonneg_r; lia).
    lia. }
  assert (Hn : 0 < n).
  { destruct (Z.lt_ge_cases 0 n) as [| Hle]; [assumption | exfalso].
    assert (N2 <= 0); [| lia]. subst N2.
    apply Z.mul_nonpos_nonneg; [lia | apply Z.pow_nonneg; lia]. }
  assert (HC : 2 * (N2 * D1) <= N1 * D2).
  { subst N1 D1 N2 D2. clear - Hn Hd Hlt.
    transitivity (n * d * (2 ^ 1 * 2 ^ Z.max 0 (- k2) * 2 ^ Z.max 0 k1));
      [change (2 ^ 1) with 2; lia |].
    transitivity (n * d * (2 ^ Z.max 0 (- k1) * 2 ^ Z.max 0 k2)); [| lia].
    apply Z.mul_le_mono_nonneg_l; [apply Z.mul_nonneg_nonneg; lia |].
    rewrite <- !pow2_split by lia. apply Z.pow_le_mono_r; lia. }
  assert (HA' : 2 * N1 * D2 < (2 ^ 54 - 1) * D1 * D2) by (apply Z.mul_lt_mono_pos_r; lia).
  assert (HB' : (2 ^ 54 - 1) * D2 * D1 <= 4 * N2 * D1) by (apply Z.mul_le_mono_nonneg_r; lia).
  lia.
Qed.

(** A quotient has one nearest double. *)
Lemma nearest_double_unique (n d : Z) (s : bool) (z1 z2 : float) :
  0 < d -> nearest_double n d s z1 -> nearest_double n d s z2 -> z1 = z2.
Proof.
  intros Hd (p1 & k1 & Hz1 & Hp1 & Hn1 & Hb1) (p2 & k2 & Hz2 & Hp2 & Hn2 & Hb2).
  pose proof (nearest_double_exponent n d p1 p2 k1 k2 Hd Hp1 Hn1 Hp2 Hn2 Hb2) as H12.
  pose proof (nearest_double_exponent n d p2 p1 k2 k1 Hd Hp2 Hn2 Hp1 Hn1 Hb1) as H21.
  assert (k1 = k2) by lia. subst k2.
  pose proof (nearest_even_unique _ _ _ _ (scaled_pos d k1 Hd) Hn1 Hn2) as Hp.
  injection Hp as ->.
  apply Prim2SF_inj. by rewrite Hz1, Hz2.
Qed.

(** Rounding to [places] decimals has one result. *)
Lemma rounded_to_unique (places : nat) (x z1 z2 : float) :
  rounded_to places x z1 -> rounded_to places x z2 -> z1 = z2.
Proof.
  unfold rounded_to.
  destruct (Prim2SF x) as [s0 | s0 | | s m e]; try congruence.
  intros (n1 & Hn1 & H1) (n2 & Hn2 & H2).
  assert (HD : 0 < 2 ^ Z.max 0 (- e)) by (apply Z.pow_pos_nonneg; lia).
  pose proof (nearest_even_unique _ _ _ _ HD Hn1 Hn2) as <-.
  destruct (n1 =? 0).
  - apply Prim2SF_inj. by rewrite H1, H2.
  - apply (nearest_double_unique n1 (10 ^ Z.of_nat places) s); try assumption.
    apply Z.pow_pos_nonneg; lia.
Qed.

End RoundingFacts.

(** C5. For every tax request [calculate_tva] returns a dict [{TVA, Total}]
    in which TVA is [suma * (cota_tva / 100)] rounded to 2 decimals and
    Total is [suma + suma * (cota_tva / 100)] rounded to 2 decimals, where
    rounded to 2 decimals is the relation [rounded_to 2] and no other float
    is either value rounded to 2 decimals.  On [{suma: 100, cota_tva: 19}]
    the result is [{TVA: 19.0, Total: 119.0}], on [{suma: 0, cota_tva: 19}]
    it is [{TVA: 0.0, Total: 0.0}], and on [{suma: 0.5, cota_tva: 25}],
    where both 0.125 and 0.625 fall half way, it is
    [{TVA: 0.12, Total: 0.62}]. *)
Theorem calculate_tva_rounds_tva_and_total :
  (forall request : TaxRequest,
     let tva := (suma request * (cota_tva request / 100))%float in
     let total := (suma request + tva)%float in
     exists tva_2 total_2 : float,
       calculate_tva request = VDict [("TVA", VFloat tva_2); ("Total", VFloat total_2)]
       /\ rounded_to 2 tva tva_2
       /\ rounded_to 2 total total_2
       /\ (forall z : float, rounded_to 2 tva z -> z = tva_2)
       /\ (forall z : float, rounded_to 2 total z -> z = total_2))
  /\ calculate_tva {| suma := 100; cota_tva := 19 |}
     = VDict [("TVA", VFloat 19); ("Total", VFloat 119)]
  /\ calculate_tva {| suma := 0; cota_tva := 19 |}
     = VDict [("TVA", VFloat 0); ("Total", VFloat 0)]
  /\ calculate_tva {| suma := 0.5; cota_tva := 25 |}
     = VDict [("TVA", VFloat (12 / 100)); ("Total", VFloat (62 / 100))].
Proof.
  split.
  - intros request tva total.
    exists (PyFloat.round tva 2), (PyFloat.round total 2).
    split; [reflexivity |].
    split; [apply round_rounded |].
    split; [apply round_rounded |].
    split; intros z Hz; exact (rounded_to_unique 2 _ _ _ Hz (round_rounded _)).
  - split; [| split]; vm_compute; reflexivity.
Qed.

(** ** Login *)

Section LoginFacts.

Variable password_context : CryptContext.
Variable jwt_encode : value -> option string -> string -> result string string.
Variable cfg : Config.

(** A name that is not in the table is refused before [verify] is called. *)
Lemma login_unknown_user (user : User) (w : World) :
  fake_users_db w !! username user = None ->
  login password_context jwt_encode cfg user w = (Raise invalid_credentials, w).
Proof.
  intros Hnone. unfold login, bind, get_db, raise. cbn.
  rewrite Hnone. reflexivity.
Qed.

(** A password the stored digest does not verify is refused. *)
Lemma login_wrong_password (user : User) (record : Credential) (w : World) :
  fake_users_db w !! username user = Some record ->
  verify password_context (password user) (stored_password record) = Return false ->
  login password_context jwt_encode cfg user w = (Raise invalid_credentials, w).
Proof.
  intros Hsome Hver.
  unfold login, bind, get_db, raise, password_context_verify, uncaught, try_except. cbn.
  rewrite Hsome. cbn. rewrite Hver. reflexivity.
Qed.

(** An exception of [verify] leaves [login] as it is. *)
Lemma login_verify_raises (user : User) (record : Credential) (w : World) (e : string) :
  fake_users_db w !! username user = Some record ->
  verify password_context (password user) (stored_password record) = Raise e ->
  login password_context jwt_encode cfg user w = (Raise (Exception e), w).
Proof.
  intros Hsome Hver.
  unfold login, bind, get_db, raise, password_context_verify, uncaught, try_except. cbn.
  rewrite Hsome. cbn. rewrite Hver. reflexivity.
Qed.

(** Credentials that pass the check reach token issuance. *)
Lemma login_checked (user : User) (record : Credential) (w : World) :
  fake_users_db w !! username user = Some record ->
  verify password_context (password user) (stored_password record) = Return true ->
  login password_context jwt_encode cfg user w = issue_token jwt_encode cfg user record w.
Proof.
  intros Hsome Hver.
  unfold login, issue_token, bind, get_db, utcnow, password_context_verify, uncaught,
    try_except, raise, ret. cbn.
  rewrite Hsome. cbn. rewrite Hver. cbn.
  destruct (jwt_encode _ _ _); reflexivity.
Qed.

(** [login] never changes the world. *)
Lemma login_world (user : User) (w : World) :
  snd (login password_context jwt_encode cfg user w) = w.
Proof.
  destruct (fake_users_db w !! username user) as [record |] eqn:Hdb.
  - destruct (verify password_context (password user) (stored_password record))
      as [[|] | e] eqn:Hver.
    + rewrite (login_checked _ _ _ Hdb Hver). unfold issue_token.
      destruct (jwt_encode _ _ _); reflexivity.
    + rewrite (login_wrong_password _ _ _ Hdb Hver). reflexivity.
    + rewrite (login_verify_raises _ _ _ _ Hdb Hver). reflexivity.
  - rewrite (login_unknown_user _ _ Hdb). reflexivity.
Qed.

(** A returned response comes from credentials that passed the check. *)
Lemma login_return_inv (user : User) (w w' : World) (response : value) :
  login password_context jwt_encode cfg user w = (Return response, w') ->
  exists record token,
    fake_users_db w !! username user = Some record
    /\ verify password_context (password user) (stored_password record) = Return true
    /\ jwt_encode (login_claims user record (clock w)) (SECRET_KEY cfg) "HS256"
       = Return token
    /\ response = VDict [("access_token", VStr token)]
    /\ w' = w.
Proof.
  intros Hlogin.
  destruct (fake_users_db w !! username user) as [record |] eqn:Hdb.
  - destruct (verify password_context (password user) (stored_password record))
      as [[|] | e] eqn:Hver.
    + rewrite (login_checked _ _ _ Hdb Hver) in Hlogin. unfold issue_token in Hlogin.
      destruct (jwt_encode _ _ _) as [token | e] eqn:Henc; [| discriminate].
      exists record, token. inversion Hlogin; subst. auto.
    + rewrite (login_wrong_password _ _ _ Hdb Hver) in Hlogin. discriminate.
    + rewrite (login_verify_raises _ _ _ _ Hdb Hver) in Hlogin. discriminate.
  - rewrite (login_unknown_user _ _ Hdb) in Hlogin. discriminate.
Qed.

End LoginFacts.

(** C3. A login whose username is not in the credential store, or whose
    password the stored digest does not verify, raises
    [HTTPException(status_code=400, detail="Invalid credentials")]; the
    handler returns no response, hence no token, and leaves the world as it
    was. *)
Theorem login_invalid_credentials_400
    (password_context : CryptContext)
    (jwt_encode : value -> option string -> string -> result string string)
    (cfg : Config) (user : User) (w : World) :
  (fake_users_db w !! username user = None
   \/ exists record,
        fake_users_db w !! username user = Some record
        /\ verify password_context (password user) (stored_password record)
           = Return false) ->
  login password_context jwt_encode cfg user w
  = (Raise (HTTPException 400 "Invalid credentials"), w)
  /\ forall response w', login password_context jwt_encode cfg user w <> (Return response, w').
Proof.
  intros Hbad.
  assert (Hraise : login password_context jwt_encode cfg user w
                   = (Raise invalid_credentials, w)).
  { destruct Hbad as [Hnone | (record & Hsome & Hver)].
    - by apply login_unknown_user.
    - by apply (login_wrong_password _ _ _ _ record). }
  split; [exact Hraise |].
  intros response w' Hret. rewrite Hraise in Hret. discriminate.
Qed.

(** The expiry [verify_token] reads off the claims [login] builds. *)
Lemma claim_exp_login_claims (sub role : value) (t : Z) :
  claim_exp (VDict [("sub", sub); ("role", role); ("exp", VDatetime t)]) = Some t.
Proof. reflexivity. Qed.

(** C4. A login that returns a response returns [{"access_token": token}]
    where [token] is what [jwt.encode] made of the claims
    [{sub: username, role: the stored role, exp: now + 1 hour}] under the
    process-wide [SECRET_KEY] with algorithm HS256; a token so signed is
    valid at the time of issue and invalid from its expiry on. *)
Theorem login_token_claims_and_lifetime
    (password_context : CryptContext)
    (jwt_encode : value -> option string -> string -> result string string)
    (cfg : Config) (user : User) (w w' : World) (response : value) :
  login password_context jwt_encode cfg user w = (Return response, w') ->
  exists record token,
    let claims := VDict [("sub", VStr (username user));
                         ("role", VStr (stored_role record));
                         ("exp", VDatetime (clock w + 3600 * 1000000))] in
    let issued := {| token_claims := claims; token_key := SECRET_KEY cfg;
                     token_alg := "HS256" |} in
    fake_users_db w !! username user = Some record
    /\ jwt_encode claims (SECRET_KEY cfg) "HS256" = Return token
    /\ response = VDict [("access_token", VStr token)]
    /\ verify_token (SECRET_KEY cfg) (clock w) issued = Some claims
    /\ forall later : Z,
         (clock w + 3600 * 1000000 <= later)%Z ->
         verify_token (SECRET_KEY cfg) later issued = None.
Proof.
  intros Hlogin.
  destruct (login_return_inv _ _ _ _ _ _ _ Hlogin)
    as (record & token & Hdb & _ & Henc & Hresp & _).
  exists record, token. cbn zeta.
  unfold login_claims, timedelta_hours in Henc.
  replace (1 * 3600 * 1000000)%Z with (3600 * 1000000)%Z in Henc by reflexivity.
  repeat split; try assumption.
  - unfold verify_token. cbn [token_key token_claims].
    rewrite bool_decide_eq_true_2, claim_exp_login_claims by reflexivity.
    destruct (Z.ltb_spec (clock w) (clock w + 3600 * 1000000)); [reflexivity | lia].
  - intros later Hlater. unfold verify_token. cbn [token_key token_claims].
    rewrite bool_decide_eq_true_2, claim_exp_login_claims by reflexivity.
    destruct (Z.ltb_spec later (clock w + 3600 * 1000000)); [lia | reflexivity].
Qed.

(** ** Registration *)

Section RegisterFacts.

Variable password_context : CryptContext.
Variable urandom : nat -> string.

(** When the hasher returns, [register] writes one row and returns. *)
Lemma register_returns (user : User) (w : World) (digest : string) :
  hash password_context (urandom (entropy w)) (password user) = Return digest ->
  register password_context urandom user w
  = (Return (VDict [("msg", VStr "User successfully registered")]),
     with_db (<[username user := new_credential user digest]> (fake_users_db w))
       (with_entropy (S (entropy w)) w)).
Proof.
  intros Hhash. unfold register, bind, password_context_hash, uncaught, try_except, ret.
  cbn. rewrite Hhash. reflexivity.
Qed.

(** When the hasher raises, so does [register], before it touches the table. *)
Lemma register_raises (user : User) (w : World) (e : string) :
  hash password_context (urandom (entropy w)) (password user) = Raise e ->
  register password_context urandom user w
  = (Raise (Exception e), with_entropy (S (entropy w)) w).
Proof.
  intros Hhash. unfold register, bind, password_context_hash, uncaught, try_except,
    raise, ret.
  cbn. rewrite Hhash. reflexivity.
Qed.

(** Rows of other users are left alone. *)
Lemma register_other_user (user : User) (w : World) (other : string) :
  username user <> other ->
  fake_users_db (snd (register password_context urandom user w)) !! other
  = fake_users_db w !! other.
Proof.
  intros Hne.
  destruct (hash password_context (urandom (entropy w)) (password user))
    as [digest | e] eqn:Hhash.
  - rewrite (register_returns _ _ _ Hhash). cbn. by rewrite lookup_insert_ne.
  - rewrite (register_raises _ _ _ Hhash). reflexivity.
Qed.

(** [register] draws one salt and does not touch the clock. *)
Lemma register_entropy_clock (user : User) (w : World) :
  entropy (snd (register password_context urandom user w)) = S (entropy w)
  /\ clock (snd (register password_context urandom user w)) = clock w.
Proof.
  destruct (hash password_context (urandom (entropy w)) (password user))
    as [digest | e] eqn:Hhash.
  - rewrite (register_returns _ _ _ Hhash). split; reflexivity.
  - rewrite (register_raises _ _ _ Hhash). split; reflexivity.
Qed.

End RegisterFacts.


(** ** Notifications *)

(** C9. When a channel call of [send_notification] raises [e], the first
    to do so being call number [i], the calls after it are never made (the
    outbox gains calls [0..i] only), and the handler returns the body
    [{"error": "Error sending notification: " + str(e)}] in place of the
    success message; it does not raise. *)
Theorem send_notification_fail_fast
    (requests_reply : list Call -> option string -> value -> result string value)
    (cfg : Config) (email phone message : string) (w : World)
    (i : nat) (url : option string) (json : value) (e : string) :
  let posts := notification_posts cfg email phone message in
  let made := fun n : nat => outbox w ++ map as_call (take n posts) in
  posts !! i = Some (url, json) ->
  (forall (j : nat) (u : option string) (b : value),
     j < i -> posts !! j = Some (u, b) ->
     exists r, requests_reply (made j) u b = Return r) ->
  requests_reply (made i) url json = Raise e ->
  send_notification requests_reply cfg email phone message w
  = (Return (VDict [("error", VStr ("Error sending notification: " +:+ e))]),
     with_logged (logged w ++ ["Error sending notification: " +:+ e])
       (with_outbox (made (S i)) w)).
Proof.
  intros posts made Hi Hbefore Hfail.
  unfold send_notification, try_except, bind, requests_post, logging_error, ret.
  destruct i as [| [| [| i]]]; cbn in Hi; try discriminate;
    injection Hi as <- <-.
  - subst made posts. cbn in Hfail. rewrite app_nil_r in Hfail.
    cbn. rewrite Hfail. reflexivity.
  - destruct (Hbefore 0 _ _ ltac:(lia) eq_refl) as [r0 H0].
    subst made posts. unfold as_call in *. cbn in H0, Hfail.
    rewrite app_nil_r in H0.
    cbn. rewrite H0. cbn. rewrite Hfail. cbn.
    unfold with_logged, with_outbox. cbn. rewrite <- app_assoc. reflexivity.
  - destruct (Hbefore 0 _ _ ltac:(lia) eq_refl) as [r0 H0].
    destruct (Hbefore 1 _ _ ltac:(lia) eq_refl) as [r1 H1].
    subst made posts. unfold as_call in *. cbn in H0, H1, Hfail.
    rewrite app_nil_r in H0.
    cbn. rewrite H0. cbn. rewrite H1. cbn.
    rewrite <- app_assoc. cbn. rewrite Hfail. cbn.
    unfold with_logged, with_outbox. cbn. rewrite <- !app_assoc. reflexivity.
Qed.

(** ** Subscriptions *)

(** A plan outside the price table has no price of its own. *)
Lemma plan_prices_unknown (name : string) :
  name <> "basic" -> name <> "pro" -> name <> "enterprise" ->
  plan_prices !! name = None.
Proof.
  intros Hb Hp He. unfold plan_prices.
  rewrite !lookup_insert_ne by congruence. apply lookup_empty.
Qed.

(** C10. A subscribe request whose plan is none of "basic", "pro" and
    "enterprise" is not turned away: the price falls back to 100, the call
    to the payment provider is made with [unit_amount = 10000], and the
    handler answers with the provider's session id (or, if the provider
    raises, with status 500). *)
Theorem subscribe_unknown_plan_falls_back_to_basic
    (stripe_reply : list Call -> value -> result string Session)
    (getenv : string -> option string) (request : PaymentRequest) (w : World) :
  plan request <> "basic" -> plan request <> "pro" -> plan request <> "enterprise" ->
  let kwargs := checkout_kwargs getenv (plan request) 10000 in
  let w' := with_outbox (outbox w ++ [StripeSessionCreate kwargs]) w in
  default 100%Z (plan_prices !! plan request) = 100%Z
  /\ unit_amounts kwargs = [Some (VInt 10000)]
  /\ subscribe stripe_reply getenv request w
     = match stripe_reply (outbox w) kwargs with
       | Return session => (Return (VDict [("session_id", VStr (id session))]), w')
       | Raise e =>
           (Raise (HTTPException 500 e),
            with_logged (logged w ++ ["Error processing subscription: " +:+ e]) w')
       end.
Proof.
  intros Hb Hp He kwargs w'.
  pose proof (plan_prices_unknown _ Hb Hp He) as Hnone.
  split; [by rewrite Hnone |].
  split; [reflexivity |].
  unfold subscribe, try_except, bind, stripe_checkout_Session_create,
    logging_error, raise, ret.
  rewrite Hnone. cbn [default from_option].
  change (100 * 100)%Z with 10000%Z. fold kwargs.
  destruct (stripe_reply (outbox w) kwargs); reflexivity.
Qed.

(** ** Start-up *)

(** C8, in the form [main.py] satisfies.  When the environment has no
    [SECRET_KEY], importing the module still succeeds: the constant is
    [None], nothing checks it, and the handlers are served (a registration
    whose password the hasher accepts returns the success message).  A
    login whose credentials pass the check hands the absent key to
    [jwt.encode] as it is; with a [jwt.encode] that refuses an absent key,
    every login raises, so no token is ever issued without a key. *)
Theorem import_main_without_secret_key
    (getenv : string -> option string) (entropy0 : nat) (clock0 : Z) :
  getenv "SECRET_KEY" = None ->
  exists app : App,
    import_main getenv entropy0 clock0 = Return app
    /\ SECRET_KEY (app_config app) = None
    /\ (forall (password_context : CryptContext) (urandom : nat -> string) (user : User)
               (digest : string),
          hash password_context (urandom entropy0) (password user) = Return digest ->
          fst (register password_context urandom user (app_world app))
          = Return (VDict [("msg", VStr "User successfully registered")]))
    /\ (forall (password_context : CryptContext)
               (jwt_encode : value -> option string -> string -> result string string)
               (user : User) (record : Credential) (w : World),
          fake_users_db w !! username user = Some record ->
          verify password_context (password user) (stored_password record)
          = Return true ->
          login password_context jwt_encode (app_config app) user w
          = match jwt_encode (login_claims user record (clock w)) None "HS256" with
            | Return token => (Return (VDict [("access_token", VStr token)]), w)
            | Raise e => (Raise (Exception e), w)
            end)
    /\ (forall (password_context : CryptContext)
               (jwt_encode : value -> option string -> string -> result string string),
          (forall payload alg, exists e, jwt_encode payload None alg = Raise e) ->
          forall (user : User) (w w' : World) (response : value),
            login password_context jwt_encode (app_config app) user w
            <> (Return response, w')).
Proof.
  intros Hkey. eexists. split; [reflexivity |].
  split; [exact Hkey |].
  split.
  { intros password_context urandom user digest Hhash.
    exact (f_equal fst
             (register_returns password_context urandom user
                {| fake_users_db := ∅; entropy := entropy0; clock := clock0;
                   outbox := []; logged := [] |} digest Hhash)). }
  split.
  - intros password_context jwt_encode user record w Hdb Hver.
    rewrite (login_checked _ _ _ _ _ _ Hdb Hver). unfold issue_token.
    cbn [app_config load_config SECRET_KEY].
    rewrite Hkey. reflexivity.
  - intros password_context jwt_encode Hrefuse user w w' response Hlogin.
    destruct (login_return_inv _ _ _ _ _ _ _ Hlogin)
      as (record & token & _ & _ & Henc & _).
    cbn [app_config load_config SECRET_KEY] in Henc. rewrite Hkey in Henc.
    destruct (Hrefuse (login_claims user record (clock w)) "HS256") as [e He].
    rewrite He in Henc. discriminate.
Qed.

(** ** The password hasher *)

Lemma strip_prefix_app (p s : string) : Bcrypt.strip_prefix p (p +:+ s) = Some s.
Proof.
  induction p as [| a p IH]; simpl; [reflexivity |].
  destruct (decide (a = a)); [exact IH | contradiction].
Qed.

Lemma split_at_app (l r : string) :
  Bcrypt.split_at (String.length l) (l +:+ r) = Some (l, r).
Proof.
  induction l as [| a l IH]; simpl; [reflexivity |].
  rewrite IH. reflexivity.
Qed.

Section BcryptFacts.

Variable checksum : string -> string -> string.

(** A digest made by [hash] parses back into its salt and checksum. *)
Lemma parse_hash (salt secret : string) :
  String.length salt = Bcrypt.salt_chars ->
  Bcrypt.parse (Bcrypt.hash checksum salt secret) = Some (salt, checksum salt secret).
Proof.
  intros Hlen. unfold Bcrypt.parse, Bcrypt.hash.
  rewrite strip_prefix_app, <- Hlen. apply split_at_app.
Qed.

Lemma verify_hash (salt secret : string) :
  String.length salt = Bcrypt.salt_chars ->
  Bcrypt.verify checksum secret (Bcrypt.hash checksum salt secret) = true.
Proof.
  intros Hlen. unfold Bcrypt.verify. rewrite parse_hash by exact Hlen.
  by apply bool_decide_eq_true_2.
Qed.

(** The salt can be read off the digest, so digests under two salts differ. *)
Lemma hash_salt_inj (salt1 salt2 secret1 secret2 : string) :
  String.length salt1 = Bcrypt.salt_chars ->
  String.length salt2 = Bcrypt.salt_chars ->
  Bcrypt.hash checksum salt1 secret1 = Bcrypt.hash checksum salt2 secret2 ->
  salt1 = salt2.
Proof.
  intros H1 H2 Heq.
  pose proof (parse_hash salt1 secret1 H1) as P1.
  rewrite Heq, (parse_hash salt2 secret2 H2) in P1. congruence.
Qed.

(** Against a digest of [secret2], [verify] accepts exactly the secrets whose
    checksum under the digest's salt is that of [secret2]. *)
Lemma verify_other (salt secret1 secret2 : string) :
  String.length salt = Bcrypt.salt_chars ->
  Bcrypt.verify checksum secret1 (Bcrypt.hash checksum salt secret2)
  = bool_decide (checksum salt secret1 = checksum salt secret2).
Proof.
  intros Hlen. unfold Bcrypt.verify. by rewrite parse_hash.
Qed.

End BcryptFacts.

(** C1. Two calls of [password_context.hash] on the same password, each
    drawing a fresh 22-character salt, return two different digests, and
    [verify] accepts the password against each of them. *)
Theorem hash_verifies_and_salts
    (checksum : string -> string -> string) (urandom : nat -> string)
    (secret : string) (w : World) :
  let ctx := Bcrypt.context checksum in
  let first := password_context_hash ctx urandom secret w in
  let second := password_context_hash ctx urandom secret (snd first) in
  String.length (urandom (entropy w)) = Bcrypt.salt_chars ->
  String.length (urandom (S (entropy w))) = Bcrypt.salt_chars ->
  urandom (entropy w) <> urandom (S (entropy w)) ->
  exists d1 d2 : string,
    fst first = Return d1 /\ fst second = Return d2
    /\ verify ctx secret d1 = Return true /\ verify ctx secret d2 = Return true
    /\ d1 <> d2.
Proof.
  intros ctx first second Hlen1 Hlen2 Hfresh.
  exists (Bcrypt.hash checksum (urandom (entropy w)) secret),
         (Bcrypt.hash checksum (urandom (S (entropy w))) secret).
  split; [reflexivity |]. split; [reflexivity |].
  split; [cbn; f_equal; by apply verify_hash |].
  split; [cbn; f_equal; by apply verify_hash |].
  intros Heq. apply Hfresh. by apply (hash_salt_inj checksum _ _ secret secret).
Qed.

(** * The theorems at concrete inputs *)

(** C1 on the stand-in hasher: two digests of "parola1" from the empty world. *)
Lemma hash_verifies_and_salts_witness :
  exists d1 d2 : string,
    fst (password_context_hash Fixture.context Fixture.urandom "parola1" Fixture.world0)
    = Return d1
    /\ fst (password_context_hash Fixture.context Fixture.urandom "parola1"
              (snd (password_context_hash Fixture.context Fixture.urandom "parola1"
                      Fixture.world0)))
       = Return d2
    /\ verify Fixture.context "parola1" d1 = Return true
    /\ verify Fixture.context "parola1" d2 = Return true
    /\ d1 <> d2.
Proof.
  apply (hash_verifies_and_salts Fixture.checksum Fixture.urandom "parola1" Fixture.world0);
    [reflexivity | reflexivity | discriminate].
Defined.

(** C3 with [ana] registered and a login under another password. *)
Lemma login_invalid_credentials_400_witness :
  login Fixture.context Fixture.jwt_encode Fixture.cfg Fixture.ana' Fixture.world1
  = (Raise (HTTPException 400 "Invalid credentials"), Fixture.world1)
  /\ forall response w',
       login Fixture.context Fixture.jwt_encode Fixture.cfg Fixture.ana' Fixture.world1
       <> (Return response, w').
Proof.
  apply (login_invalid_credentials_400 Fixture.context Fixture.jwt_encode Fixture.cfg
           Fixture.ana' Fixture.world1).
  right. eexists. split; reflexivity.
Defined.

(** C4 for [ana]'s login right after her registration. *)
Lemma login_token_claims_and_lifetime_witness :
  exists (record : Credential) (token : string),
    let claims := VDict [("sub", VStr "ana");
                         ("role", VStr (stored_role record));
                         ("exp", VDatetime (1700000000000000 + 3600 * 1000000))] in
    let issued := {| token_claims := claims; token_key := Some "s3cret";
                     token_alg := "HS256" |} in
    fake_users_db Fixture.world1 !! "ana" = Some record
    /\ Fixture.jwt_encode claims (Some "s3cret") "HS256" = Return token
    /\ VDict [("access_token", VStr "jwt.HS256.s3cret")]
       = VDict [("access_token", VStr token)]
    /\ verify_token (Some "s3cret") 1700000000000000 issued = Some claims
    /\ forall later : Z,
         (1700000000000000 + 3600 * 1000000 <= later)%Z ->
         verify_token (Some "s3cret") later issued = None.
Proof.
  apply (login_token_claims_and_lifetime Fixture.context Fixture.jwt_encode Fixture.cfg
           Fixture.ana Fixture.world1 Fixture.world1
           (VDict [("access_token", VStr "jwt.HS256.s3cret")])).
  reflexivity.
Defined.



(** C9 with the SMS gateway down: the e-mail and SMS calls are made, the
    WhatsApp call is not. *)
Lemma send_notification_fail_fast_witness :
  send_notification Fixture.requests_reply Fixture.cfg "ana@firma.ro" "0700000000" "TVA"
    Fixture.world0
  = (Return (VDict [("error", VStr "Error sending notification: connection refused")]),
     with_logged ["Error sending notification: connection refused"]
       (with_outbox
          [RequestsPost (Some "https://mail.example/send")
             (VDict [("email", VStr "ana@firma.ro"); ("message", VStr "TVA")]);
           RequestsPost (Some "https://sms.example/send")
             (VDict [("phone", VStr "0700000000"); ("message", VStr "TVA")])]
          Fixture.world0)).
Proof.
  apply (send_notification_fail_fast Fixture.requests_reply Fixture.cfg
           "ana@firma.ro" "0700000000" "TVA" Fixture.world0 1
           (Some "https://sms.example/send")
           (VDict [("phone", VStr "0700000000"); ("message", VStr "TVA")])
           "connection refused").
  - reflexivity.
  - intros j u b Hj Hpost. destruct j as [| j]; [| lia].
    injection Hpost as <- <-. exists VNone. reflexivity.
  - reflexivity.
Defined.

(** C10 for the plan "gold". *)
Lemma subscribe_unknown_plan_falls_back_to_basic_witness :
  let request := {| user_id := "u1"; plan := "gold" |} in
  let kwargs := checkout_kwargs Fixture.getenv "gold" 10000 in
  default 100%Z (plan_prices !! "gold") = 100%Z
  /\ unit_amounts kwargs = [Some (VInt 10000)]
  /\ subscribe Fixture.stripe_reply Fixture.getenv request Fixture.world0
     = (Return (VDict [("session_id", VStr "cs_test_1")]),
        with_outbox [StripeSessionCreate kwargs] Fixture.world0).
Proof.
  apply (subscribe_unknown_plan_falls_back_to_basic Fixture.stripe_reply Fixture.getenv
           {| user_id := "u1"; plan := "gold" |} Fixture.world0);
    discriminate.
Defined.

(** C8 (the form above) for the empty environment. *)
Lemma import_main_without_secret_key_witness :
  exists app : App,
    import_main Fixture.no_env 0 0 = Return app
    /\ SECRET_KEY (app_config app) = None
    /\ (forall (password_context : CryptContext) (urandom : nat -> string) (user : User)
               (digest : string),
          hash password_context (urandom 0) (password user) = Return digest ->
          fst (register password_context urandom user (app_world app))
          = Return (VDict [("msg", VStr "User successfully registered")]))
    /\ (forall (password_context : CryptContext)
               (jwt_encode : value -> option string -> string -> result string string)
               (user : User) (record : Credential) (w : World),
          fake_users_db w !! username user = Some record ->
          verify password_context (password user) (stored_password record)
          = Return true ->
          login password_context jwt_encode (app_config app) user w
          = match jwt_encode (login_claims user record (clock w)) None "HS256" with
            | Return token => (Return (VDict [("access_token", VStr token)]), w)
            | Raise e => (Raise (Exception e), w)
            end)
    /\ (forall (password_context : CryptContext)
               (jwt_encode : value -> option string -> string -> result string string),
          (forall payload alg, exists e, jwt_encode payload None alg = Raise e) ->
          forall (user : User) (w w' : World) (response : value),
            login password_context jwt_encode (app_config app) user w
            <> (Return response, w')).
Proof.
  apply (import_main_without_secret_key Fixture.no_env 0 0). reflexivity.
Defined.

(** C8 as the spec states it fails: with an empty environment the import
    returns a running process whose [SECRET_KEY] is [None], and that process
    serves a registration. *)
Lemma keyless_process_starts_and_serves :
  import_main Fixture.no_env 0 1700000000000000 = Return Fixture.keyless_app
  /\ SECRET_KEY (app_config Fixture.keyless_app) = None
  /\ fst (register Fixture.context Fixture.urandom Fixture.ana
            (app_world Fixture.keyless_app))
     = Return (VDict [("msg", VStr "User successfully registered")]).
Proof. split; [reflexivity | split; reflexivity]. Qed.

(** * Further properties *)

(** ** Who writes the user table *)

Section ReadsTable.

Context {E : Type}.

Lemma reads_ret {A} (a : A) : reads_table (ret (E := E) a).
Proof. intros w. split; [reflexivity | cbn; lia]. Qed.

Lemma reads_raise {A} (e : E) : reads_table (raise (A := A) e).
Proof. intros w. split; [reflexivity | cbn; lia]. Qed.

Lemma reads_pure {A} (r : result E A) : reads_table (fun w => (r, w)).
Proof. intros w. split; [reflexivity | cbn; lia]. Qed.

Lemma reads_bind {A B} (m : M E A) (k : A -> M E B) :
  reads_table m -> (forall a, reads_table (k a)) -> reads_table (bind m k).
Proof.
  intros Hm Hk w. unfold bind. specialize (Hm w).
  destruct (m w) as [[a | e] w1]; cbn in *; [| exact Hm].
  destruct (Hk a w1) as [Hdb Hen]. destruct Hm as [Hdb1 Hen1].
  split; [congruence | lia].
Qed.

Lemma reads_try_except {E' A} (body : M E A) (handler : E -> M E' A) :
  reads_table body -> (forall e, reads_table (handler e)) ->
  reads_table (try_except body handler).
Proof.
  intros Hb Hh w. unfold try_except. specialize (Hb w).
  destruct (body w) as [[a | e] w1]; cbn in *; [exact Hb |].
  destruct (Hh e w1) as [Hdb Hen]. destruct Hb as [Hdb1 Hen1].
  split; [congruence | lia].
Qed.

Lemma reads_logging_error (msg : string) : reads_table (logging_error (E := E) msg).
Proof. intros w. split; [reflexivity | cbn; lia]. Qed.

End ReadsTable.

Lemma reads_requests_post
    (requests_reply : list Call -> option string -> value -> result string value)
    (url : option string) (json : value) :
  reads_table (requests_post requests_reply url json).
Proof. intros w. split; [reflexivity | cbn; lia]. Qed.

Lemma reads_stripe_create
    (stripe_reply : list Call -> value -> result string Session) (kwargs : value) :
  reads_table (stripe_checkout_Session_create stripe_reply kwargs).
Proof. intros w. split; [reflexivity | cbn; lia]. Qed.

Lemma reads_pdf_call
    (fpdf_reply : list PdfOp -> PdfOp -> result string unit)
    (done : list PdfOp) (op : PdfOp) :
  reads_table (pdf_call fpdf_reply done op).
Proof. intros w. split; [reflexivity | cbn; lia]. Qed.

Lemma reads_uuid4 (uuid4 : nat -> string) : reads_table (uuid_uuid4 uuid4).
Proof. intros w. split; [reflexivity | cbn; lia]. Qed.

Create HintDb reads.
#[local] Hint Resolve reads_ret reads_raise reads_pure reads_logging_error
  reads_requests_post reads_stripe_create reads_pdf_call reads_uuid4 : reads.

Ltac reads_step :=
  cbv zeta;
  first [ apply reads_try_except; [| intros ?]
        | apply reads_bind; [| intros ?]
        | solve [auto with reads] ].

Section HandlersRead.

Variable password_context : CryptContext.
Variable jwt_encode : value -> option string -> string -> result string string.
Variable requests_reply : list Call -> option string -> value -> result string value.
Variable stripe_reply : list Call -> value -> result string Session.
Variable response_json : value -> result string value.
Variable fpdf_reply : list PdfOp -> PdfOp -> result string unit.
Variable uuid4 : nat -> string.
Variable float_str : float -> string.
Variable getenv : string -> option string.
Variable cfg : Config.

Lemma login_reads (user : User) :
  reads_table (login password_context jwt_encode cfg user).
Proof.
  intros w. rewrite login_world. split; [reflexivity | lia].
Qed.

Lemma subscribe_reads (request : PaymentRequest) :
  reads_table (subscribe stripe_reply getenv request).
Proof. unfold subscribe. repeat reads_step. Qed.

Lemma send_notification_reads (email phone message : string) :
  reads_table (send_notification requests_reply cfg email phone message).
Proof. unfold send_notification. repeat reads_step. Qed.

Lemma submit_anaf_reads (data : value) :
  reads_table (submit_anaf requests_reply response_json cfg data).
Proof. unfold submit_anaf. repeat reads_step. Qed.

Lemma generate_pdf_reads (request : PDFRequest) :
  reads_table (generate_pdf fpdf_reply uuid4 float_str request).
Proof. unfold generate_pdf. repeat reads_step. Qed.

End HandlersRead.

(** X1. Of the handlers only [register] writes [fake_users_db]: [login],
    [subscribe], [send_notification], [submit_anaf] and [generate_pdf]
    leave the table exactly as they found it, whatever the outside world
    answers. *)
Theorem only_register_writes_users
    (password_context : CryptContext)
    (jwt_encode : value -> option string -> string -> result string string)
    (requests_reply : list Call -> option string -> value -> result string value)
    (stripe_reply : list Call -> value -> result string Session)
    (response_json : value -> result string value)
    (fpdf_reply : list PdfOp -> PdfOp -> result string unit)
    (uuid4 : nat -> string) (float_str : float -> string)
    (getenv : string -> option string) (cfg : Config) (w : World) :
  (forall user,
     fake_users_db (snd (login password_context jwt_encode cfg user w)) = fake_users_db w)
  /\ (forall request,
        fake_users_db (snd (subscribe stripe_reply getenv request w)) = fake_users_db w)
  /\ (forall email phone message,
        fake_users_db (snd (send_notification requests_reply cfg email phone message w))
        = fake_users_db w)
  /\ (forall data,
        fake_users_db (snd (submit_anaf requests_reply response_json cfg data w))
        = fake_users_db w)
  /\ (forall request,
        fake_users_db (snd (generate_pdf fpdf_reply uuid4 float_str request w))
        = fake_users_db w).
Proof.
  repeat split; intros.
  - apply login_reads.
  - apply subscribe_reads.
  - apply send_notification_reads.
  - apply submit_anaf_reads.
  - apply generate_pdf_reads.
Qed.

(** ** The shape of the table *)

Lemma table_hashed_reads {E A} (password_context : CryptContext)
    (urandom : nat -> string) (m : M E A) (w : World) :
  reads_table m ->
  table_hashed password_context urandom w ->
  table_hashed password_context urandom (snd (m w)).
Proof.
  intros Hm Hw name row Hrow. destruct (Hm w) as [Hdb Hen].
  rewrite Hdb in Hrow. destruct (Hw name row Hrow) as [H2fa (n & secret & Hn & Hd)].
  split; [exact H2fa |]. exists n, secret. split; [lia | exact Hd].
Qed.

Lemma table_hashed_register (password_context : CryptContext)
    (urandom : nat -> string) (user : User) (w : World) :
  table_hashed password_context urandom w ->
  table_hashed password_context urandom (snd (register password_context urandom user w)).
Proof.
  intros Hw name row.
  destruct (hash password_context (urandom (entropy w)) (password user))
    as [digest | e] eqn:Hhash.
  - rewrite (register_returns _ _ _ _ _ Hhash). cbn.
    destruct (decide (username user = name)) as [-> | Hne].
    + rewrite lookup_insert_eq. intros [= <-]. split; [reflexivity |].
      exists (entropy w), (password user). split; [lia | exact Hhash].
    + rewrite lookup_insert_ne by exact Hne. intros Hrow.
      destruct (Hw name row Hrow) as [H2fa (n & secret & Hn & Hd)].
      split; [exact H2fa |]. exists n, secret. split; [lia | exact Hd].
  - rewrite (register_raises _ _ _ _ _ Hhash). cbn. intros Hrow.
    destruct (Hw name row Hrow) as [H2fa (n & secret & Hn & Hd)].
    split; [exact H2fa |]. exists n, secret. split; [lia | exact Hd].
Qed.

(** X2. In every state the process can reach, each row of [fake_users_db]
    holds a digest that [password_context.hash] produced under a salt drawn
    earlier, and has ["2fa_enabled"] false: this holds of the empty table
    after import, and every handler keeps it. *)
Theorem table_stays_hashed
    (password_context : CryptContext) (urandom : nat -> string)
    (jwt_encode : value -> option string -> string -> result string string)
    (requests_reply : list Call -> option string -> value -> result string value)
    (stripe_reply : list Call -> value -> result string Session)
    (response_json : value -> result string value)
    (fpdf_reply : list PdfOp -> PdfOp -> result string unit)
    (uuid4 : nat -> string) (float_str : float -> string)
    (getenv : string -> option string) (cfg : Config) :
  (forall env entropy0 clock0 app,
     import_main env entropy0 clock0 = Return app ->
     table_hashed password_context urandom (app_world app))
  /\ (forall w : World,
        table_hashed password_context urandom w ->
        (forall user,
           table_hashed password_context urandom
             (snd (register password_context urandom user w)))
        /\ (forall user,
              table_hashed password_context urandom
                (snd (login password_context jwt_encode cfg user w)))
        /\ (forall request,
              table_hashed password_context urandom
                (snd (subscribe stripe_reply getenv request w)))
        /\ (forall email phone message,
              table_hashed password_context urandom
                (snd (send_notification requests_reply cfg email phone message w)))
        /\ (forall data,
              table_hashed password_context urandom
                (snd (submit_anaf requests_reply response_json cfg data w)))
        /\ (forall request,
              table_hashed password_context urandom
                (snd (generate_pdf fpdf_reply uuid4 float_str request w)))).
Proof.
  split.
  - intros env entropy0 clock0 app [= <-] name row Hrow. cbn in Hrow.
    rewrite lookup_empty in Hrow. discriminate.
  - intros w Hw.
    split; [intros user; by apply table_hashed_register |].
    split; [intros user; apply table_hashed_reads; [apply login_reads | exact Hw] |].
    split; [intros request; apply table_hashed_reads; [apply subscribe_reads | exact Hw] |].
    split; [intros email phone message;
            apply table_hashed_reads; [apply send_notification_reads | exact Hw] |].
    split; [intros data; apply table_hashed_reads; [apply submit_anaf_reads | exact Hw] |].
    intros request. apply table_hashed_reads; [apply generate_pdf_reads | exact Hw].
Qed.

(** X2 from the empty process through [ana]'s registration. *)
Lemma table_stays_hashed_witness :
  table_hashed Fixture.context Fixture.urandom Fixture.world1.
Proof.
  pose proof (table_stays_hashed Fixture.context Fixture.urandom Fixture.jwt_encode
                Fixture.requests_reply Fixture.stripe_reply Fixture.response_json
                Fixture.fpdf_reply Fixture.uuid4 Fixture.float_str Fixture.getenv
                Fixture.cfg) as [Hstart Hkeep].
  apply (proj1 (Hkeep Fixture.world0
                  (Hstart Fixture.no_env 0%nat 1700000000000000%Z Fixture.keyless_app
                     eq_refl))
           Fixture.ana).
Defined.

(** ** Registration and the other accounts *)

(** X3. [register] touches one row at most and removes none.  The row of
    every other username is what it was, whether [register] returns or
    raises; when it returns, the names in the table are the old ones and
    [user.username]; when it raises (the hasher refused the password), the
    table is exactly what it was. *)
Theorem register_touches_one_row
    (password_context : CryptContext) (urandom : nat -> string)
    (user : User) (w : World) (other : string) :
  username user <> other ->
  let after := fake_users_db (snd (register password_context urandom user w)) in
  after !! other = fake_users_db w !! other
  /\ dom (fake_users_db w) ⊆ dom after
  /\ (forall body,
        fst (register password_context urandom user w) = Return body ->
        dom after = {[username user]} ∪ dom (fake_users_db w))
  /\ (forall e,
        fst (register password_context urandom user w) = Raise e ->
        after = fake_users_db w).
Proof.
  intros Hne after. split; [by apply register_other_user |]. subst after.
  destruct (hash password_context (urandom (entropy w)) (password user))
    as [digest | e] eqn:Hhash.
  - rewrite (register_returns _ _ _ _ _ Hhash). cbn.
    split; [rewrite dom_insert_L; set_solver |].
    split; [intros _ _; apply dom_insert_L | intros e' [=]].
  - rewrite (register_raises _ _ _ _ _ Hhash). cbn.
    split; [done |]. split; [intros body [=] | done].
Qed.

(** X3 for [dan] registering after [ana]: her row stays. *)
Lemma register_touches_one_row_witness :
  let after :=
    fake_users_db
      (snd (register Fixture.context Fixture.urandom Fixture.dan Fixture.world1)) in
  after !! "ana" = fake_users_db Fixture.world1 !! "ana"
  /\ dom (fake_users_db Fixture.world1) ⊆ dom after
  /\ (forall body,
        fst (register Fixture.context Fixture.urandom Fixture.dan Fixture.world1)
        = Return body ->
        dom after = {["dan"]} ∪ dom (fake_users_db Fixture.world1))
  /\ (forall e,
        fst (register Fixture.context Fixture.urandom Fixture.dan Fixture.world1)
        = Raise e ->
        after = fake_users_db Fixture.world1).
Proof.
  apply (register_touches_one_row Fixture.context Fixture.urandom Fixture.dan
           Fixture.world1 "ana").
  discriminate.
Defined.

(** X4. Registering another username does not change what a login answers:
    the response or exception of [login] for [user] is the same before and
    after a registration under a different name. *)
Theorem login_unaffected_by_other_registration
    (password_context : CryptContext) (urandom : nat -> string)
    (jwt_encode : value -> option string -> string -> result string string)
    (cfg : Config) (user other : User) (w : World) :
  username other <> username user ->
  fst (login password_context jwt_encode cfg user
         (snd (register password_context urandom other w)))
  = fst (login password_context jwt_encode cfg user w).
Proof.
  intros Hne.
  pose proof (register_other_user password_context urandom other w (username user) Hne)
    as Hrow.
  pose proof (proj2 (register_entropy_clock password_context urandom other w)) as Hclock.
  set (w1 := snd (register password_context urandom other w)) in *.
  destruct (fake_users_db w !! username user) as [record |] eqn:Hdb.
  - destruct (verify password_context (password user) (stored_password record))
      as [[|] | e] eqn:Hver.
    + rewrite (login_checked _ _ _ _ _ _ Hrow Hver), (login_checked _ _ _ _ _ _ Hdb Hver).
      unfold issue_token. rewrite Hclock. by destruct (jwt_encode _ _ _).
    + by rewrite (login_wrong_password _ _ _ _ _ _ Hrow Hver),
        (login_wrong_password _ _ _ _ _ _ Hdb Hver).
    + by rewrite (login_verify_raises _ _ _ _ _ _ _ Hrow Hver),
        (login_verify_raises _ _ _ _ _ _ _ Hdb Hver).
  - by rewrite (login_unknown_user _ _ _ _ _ Hrow), (login_unknown_user _ _ _ _ _ Hdb).
Qed.

(** X4 for [ana]'s login around [dan]'s registration. *)
Lemma login_unaffected_by_other_registration_witness :
  fst (login Fixture.context Fixture.jwt_encode Fixture.cfg Fixture.ana
         (snd (register Fixture.context Fixture.urandom Fixture.dan Fixture.world1)))
  = fst (login Fixture.context Fixture.jwt_encode Fixture.cfg Fixture.ana Fixture.world1).
Proof.
  apply (login_unaffected_by_other_registration Fixture.context Fixture.urandom
           Fixture.jwt_encode Fixture.cfg Fixture.ana Fixture.dan Fixture.world1).
  discriminate.
Defined.

(** X5. Request fields the handlers never read: [login] answers the same
    whatever [role] the request carries (the token's role is the stored
    one), and [subscribe] answers and calls the provider the same whatever
    [user_id] the request carries. *)
Theorem unread_request_fields
    (password_context : CryptContext)
    (jwt_encode : value -> option string -> string -> result string string)
    (stripe_reply : list Call -> value -> result string Session)
    (getenv : string -> option string) (cfg : Config) (w : World) :
  (forall name secret role1 role2 : string,
     login password_context jwt_encode cfg
       {| username := name; password := secret; role := role1 |} w
     = login password_context jwt_encode cfg
         {| username := name; password := secret; role := role2 |} w)
  /\ (forall id1 id2 name : string,
        subscribe stripe_reply getenv {| user_id := id1; plan := name |} w
        = subscribe stripe_reply getenv {| user_id := id2; plan := name |} w).
Proof. split; intros; reflexivity. Qed.

(** X6. A process that has just been imported knows no user: whatever the
    environment held, every login against its initial state is refused with
    status 400. *)
Theorem fresh_process_refuses_every_login
    (env : string -> option string) (entropy0 : nat) (clock0 : Z)
    (password_context : CryptContext)
    (jwt_encode : value -> option string -> string -> result string string)
    (user : User) :
  exists app : App,
    import_main env entropy0 clock0 = Return app
    /\ login password_context jwt_encode (app_config app) user (app_world app)
       = (Raise (HTTPException 400 "Invalid credentials"), app_world app).
Proof.
  eexists. split; [reflexivity |].
  apply login_unknown_user. apply lookup_empty.
Qed.

(** ** Subscriptions, for every plan *)

(** X7. [subscribe] makes exactly one call to the payment provider, whatever
    the plan and whatever the provider answers; the [unit_amount] it sends
    is 10000, 20000 or 50000 (10000 for "basic", 20000 for "pro", 50000 for
    "enterprise"); it returns the id of the session the provider returned,
    or raises status 500 carrying the provider's own message. *)
Theorem subscribe_one_call_priced_from_table
    (stripe_reply : list Call -> value -> result string Session)
    (getenv : string -> option string) (w : World) :
  (forall request : PaymentRequest,
     exists amount : Z,
       amount ∈ [10000; 20000; 50000]%Z
       /\ let kwargs := checkout_kwargs getenv (plan request) amount in
          let w' := with_outbox (outbox w ++ [StripeSessionCreate kwargs]) w in
          subscribe stripe_reply getenv request w
          = match stripe_reply (outbox w) kwargs with
            | Return session => (Return (VDict [("session_id", VStr (id session))]), w')
            | Raise e =>
                (Raise (HTTPException 500 e),
                 with_logged (logged w ++ ["Error processing subscription: " +:+ e]) w')
            end)
  /\ (forall uid : string,
        outbox (snd (subscribe stripe_reply getenv {| user_id := uid; plan := "basic" |} w))
        = outbox w ++ [StripeSessionCreate (checkout_kwargs getenv "basic" 10000)])
  /\ (forall uid : string,
        outbox (snd (subscribe stripe_reply getenv {| user_id := uid; plan := "pro" |} w))
        = outbox w ++ [StripeSessionCreate (checkout_kwargs getenv "pro" 20000)])
  /\ (forall uid : string,
        outbox (snd (subscribe stripe_reply getenv
                       {| user_id := uid; plan := "enterprise" |} w))
        = outbox w ++ [StripeSessionCreate (checkout_kwargs getenv "enterprise" 50000)]).
Proof.
  assert (Hrun : forall request : PaymentRequest,
            let amount := (default 100 (plan_prices !! plan request) * 100)%Z in
            let kwargs := checkout_kwargs getenv (plan request) amount in
            let w' := with_outbox (outbox w ++ [StripeSessionCreate kwargs]) w in
            subscribe stripe_reply getenv request w
            = match stripe_reply (outbox w) kwargs with
              | Return session => (Return (VDict [("session_id", VStr (id session))]), w')
              | Raise e =>
                  (Raise (HTTPException 500 e),
                   with_logged (logged w ++ ["Error processing subscription: " +:+ e]) w')
              end).
  { intros request amount kwargs w'.
    unfold subscribe, try_except, bind, stripe_checkout_Session_create,
      logging_error, raise, ret.
    fold amount. fold kwargs.
    destruct (stripe_reply (outbox w) kwargs); reflexivity. }
  assert (Hout : forall request : PaymentRequest,
            outbox (snd (subscribe stripe_reply getenv request w))
            = outbox w ++ [StripeSessionCreate
                             (checkout_kwargs getenv (plan request)
                                (default 100 (plan_prices !! plan request) * 100)%Z)]).
  { intros request. rewrite Hrun. by destruct (stripe_reply _ _). }
  split; [| split; [| split]]; try (intros uid; apply Hout).
  intros request. exists (default 100 (plan_prices !! plan request) * 100)%Z.
  split; [| apply Hrun].
  unfold plan_prices.
  destruct (decide (plan request = "basic")) as [-> | Hb]; [set_solver |].
  destruct (decide (plan request = "pro")) as [-> | Hp]; [set_solver |].
  destruct (decide (plan request = "enterprise")) as [-> | He]; [set_solver |].
  rewrite !lookup_insert_ne, lookup_empty by congruence. set_solver.
Qed.

(** X8. [subscribe] does not check [APP_DOMAIN]: when the variable is not
    set, the provider is still called, with the redirect URLs
    [https://None/success] and [https://None/cancel]. *)
Theorem subscribe_without_app_domain
    (stripe_reply : list Call -> value -> result string Session)
    (getenv : string -> option string) (request : PaymentRequest) (w : World) :
  getenv "APP_DOMAIN" = None ->
  exists kwargs : value,
    outbox (snd (subscribe stripe_reply getenv request w))
    = outbox w ++ [StripeSessionCreate kwargs]
    /\ dict_item "success_url" kwargs = Some (VStr "https://None/success")
    /\ dict_item "cancel_url" kwargs = Some (VStr "https://None/cancel").
Proof.
  intros Henv.
  exists (checkout_kwargs getenv (plan request)
            (default 100 (plan_prices !! plan request) * 100)%Z).
  split.
  - unfold subscribe, try_except, bind, stripe_checkout_Session_create,
      logging_error, raise, ret.
    by destruct (stripe_reply _ _).
  - unfold checkout_kwargs. rewrite Henv. split; reflexivity.
Qed.

(** X8 for the plan "pro" in an environment without [APP_DOMAIN]. *)
Lemma subscribe_without_app_domain_witness :
  exists kwargs : value,
    outbox (snd (subscribe Fixture.stripe_reply Fixture.getenv
                   {| user_id := "u1"; plan := "pro" |} Fixture.world0))
    = outbox Fixture.world0 ++ [StripeSessionCreate kwargs]
    /\ dict_item "success_url" kwargs = Some (VStr "https://None/success")
    /\ dict_item "cancel_url" kwargs = Some (VStr "https://None/cancel").
Proof.
  apply (subscribe_without_app_domain Fixture.stripe_reply Fixture.getenv
           {| user_id := "u1"; plan := "pro" |} Fixture.world0).
  reflexivity.
Defined.

(** ** Notifications, beyond the first failure *)

(** X9. When all three channel calls return, [send_notification] answers
    [{"msg": "Notification sent successfully"}], has made the e-mail, SMS
    and WhatsApp calls in that order and no other, and logs nothing. *)
Theorem send_notification_all_sent
    (requests_reply : list Call -> option string -> value -> result string value)
    (cfg : Config) (email phone message : string) (w : World) :
  let posts := notification_posts cfg email phone message in
  let made := fun n : nat => outbox w ++ map as_call (take n posts) in
  (forall (j : nat) (u : option string) (b : value),
     posts !! j = Some (u, b) -> exists r, requests_reply (made j) u b = Return r) ->
  send_notification requests_reply cfg email phone message w
  = (Return (VDict [("msg", VStr "Notification sent successfully")]),
     with_outbox (outbox w ++ map as_call posts) w).
Proof.
  intros posts made Hall.
  destruct (Hall 0 _ _ eq_refl) as [r0 H0].
  destruct (Hall 1 _ _ eq_refl) as [r1 H1].
  destruct (Hall 2 _ _ eq_refl) as [r2 H2].
  subst made posts. unfold as_call in *. cbn in H0, H1, H2.
  rewrite app_nil_r in H0.
  unfold send_notification, try_except, bind, requests_post, logging_error, ret.
  cbn. rewrite H0. cbn. rewrite H1. cbn.
  rewrite <- app_assoc. cbn. rewrite H2. cbn.
  unfold with_outbox. cbn. rewrite <- !app_assoc. reflexivity.
Qed.

(** X9 with every gateway answering. *)
Lemma send_notification_all_sent_witness :
  send_notification Fixture.requests_ok Fixture.cfg "ana@firma.ro" "0700000000" "TVA"
    Fixture.world0
  = (Return (VDict [("msg", VStr "Notification sent successfully")]),
     with_outbox
       (outbox Fixture.world0
        ++ map as_call (notification_posts Fixture.cfg "ana@firma.ro" "0700000000" "TVA"))
       Fixture.world0).
Proof.
  apply (send_notification_all_sent Fixture.requests_ok Fixture.cfg
           "ana@firma.ro" "0700000000" "TVA" Fixture.world0).
  intros j u b _. exists (VStr "{}"). reflexivity.
Defined.

(** X10. [send_notification] never raises, whatever the channels do: it
    always returns a body, after making the first one, two or three of its
    channel calls in order and nothing else. *)
Theorem send_notification_never_raises
    (requests_reply : list Call -> option string -> value -> result string value)
    (cfg : Config) (email phone message : string) (w : World) :
  exists (body : value) (n : nat),
    fst (send_notification requests_reply cfg email phone message w) = Return body
    /\ 1 <= n <= 3
    /\ outbox (snd (send_notification requests_reply cfg email phone message w))
       = outbox w ++ map as_call (take n (notification_posts cfg email phone message)).
Proof.
  unfold send_notification, try_except, bind, requests_post, logging_error, ret,
    notification_posts, as_call.
  cbn.
  destruct (requests_reply (outbox w) _ _) as [r0 | e0]; cbn.
  - destruct (requests_reply (outbox w ++ [_]) _ _) as [r1 | e1]; cbn.
    + destruct (requests_reply ((outbox w ++ [_]) ++ [_]) _ _) as [r2 | e2]; cbn;
        eexists _, 3; (split; [reflexivity |]); (split; [lia |]);
        cbn; by rewrite <- !app_assoc.
    + eexists _, 2. split; [reflexivity |]. split; [lia |].
      cbn. by rewrite <- !app_assoc.
  - eexists _, 1. split; [reflexivity |]. split; [lia | reflexivity].
Qed.

(** ** Submissions to ANAF *)

(** X11. [submit_anaf] never raises and always makes exactly one call, the
    POST of [data] to [ANAF_API_URL]: a failure of the call or of decoding
    its reply comes back as a body, not as an exception. *)
Theorem submit_anaf_never_raises
    (requests_reply : list Call -> option string -> value -> result string value)
    (response_json : value -> result string value)
    (cfg : Config) (data : value) (w : World) :
  exists body : value,
    fst (submit_anaf requests_reply response_json cfg data w) = Return body
    /\ outbox (snd (submit_anaf requests_reply response_json cfg data w))
       = outbox w ++ [RequestsPost (ANAF_API_URL cfg) data].
Proof.
  unfold submit_anaf, try_except, bind, requests_post, logging_error, ret. cbn.
  destruct (requests_reply (outbox w) _ _) as [response | e]; cbn.
  - destruct (response_json response) as [json | e]; cbn; eexists; split; reflexivity.
  - eexists; split; reflexivity.
Qed.

(** X12. When the call returns and its reply decodes, [submit_anaf] hands
    the decoded JSON back unchanged and logs nothing. *)
Theorem submit_anaf_passes_reply_through
    (requests_reply : list Call -> option string -> value -> result string value)
    (response_json : value -> result string value)
    (cfg : Config) (data response json : value) (w : World) :
  requests_reply (outbox w) (ANAF_API_URL cfg) data = Return response ->
  response_json response = Return json ->
  submit_anaf requests_reply response_json cfg data w
  = (Return json, with_outbox (outbox w ++ [RequestsPost (ANAF_API_URL cfg) data]) w).
Proof.
  intros Hpost Hjson.
  unfold submit_anaf, try_except, bind, requests_post, logging_error, ret. cbn.
  rewrite Hpost. cbn. rewrite Hjson. reflexivity.
Qed.

(** X12 with ANAF answering an empty object. *)
Lemma submit_anaf_passes_reply_through_witness :
  submit_anaf Fixture.requests_ok Fixture.response_json Fixture.cfg
    (VDict [("cui", VStr "RO123")]) Fixture.world0
  = (Return (VDict []),
     with_outbox
       (outbox Fixture.world0
        ++ [RequestsPost (ANAF_API_URL Fixture.cfg) (VDict [("cui", VStr "RO123")])])
       Fixture.world0).
Proof.
  apply (submit_anaf_passes_reply_through Fixture.requests_ok Fixture.response_json
           Fixture.cfg (VDict [("cui", VStr "RO123")]) (VStr "{}") (VDict [])
           Fixture.world0);
    reflexivity.
Defined.

(** X13. A reply that arrived but is not JSON is reported like a failed
    connection: [submit_anaf] returns
    [{"error": "Error connecting to ANAF: " + str(e)}] for the decoder's
    exception [e] and logs the same message; so does a call that raised. *)
Theorem submit_anaf_reports_every_failure_as_connection_error
    (requests_reply : list Call -> option string -> value -> result string value)
    (response_json : value -> result string value)
    (cfg : Config) (data : value) (e : string) (w : World) :
  (requests_reply (outbox w) (ANAF_API_URL cfg) data = Raise e
   \/ exists response,
        requests_reply (outbox w) (ANAF_API_URL cfg) data = Return response
        /\ response_json response = Raise e) ->
  submit_anaf requests_reply response_json cfg data w
  = (Return (VDict [("error", VStr ("Error connecting to ANAF: " +:+ e))]),
     with_logged (logged w ++ ["Error connecting to ANAF: " +:+ e])
       (with_outbox (outbox w ++ [RequestsPost (ANAF_API_URL cfg) data]) w)).
Proof.
  intros [Hpost | (response & Hpost & Hjson)];
    unfold submit_anaf, try_except, bind, requests_post, logging_error, ret; cbn;
    rewrite Hpost; cbn; [| rewrite Hjson]; reflexivity.
Qed.

(** X13 with ANAF answering a page that is not JSON. *)
Lemma submit_anaf_reports_every_failure_as_connection_error_witness :
  submit_anaf Fixture.requests_ok Fixture.response_not_json Fixture.cfg
    (VDict [("cui", VStr "RO123")]) Fixture.world0
  = (Return (VDict [("error",
                     VStr ("Error connecting to ANAF: "
                           +:+ "Expecting value: line 1 column 1 (char 0)"))]),
     with_logged
       (logged Fixture.world0
        ++ ["Error connecting to ANAF: " +:+ "Expecting value: line 1 column 1 (char 0)"])
       (with_outbox
          (outbox Fixture.world0
           ++ [RequestsPost (ANAF_API_URL Fixture.cfg) (VDict [("cui", VStr "RO123")])])
          Fixture.world0)).
Proof.
  apply (submit_anaf_reports_every_failure_as_connection_error Fixture.requests_ok
           Fixture.response_not_json Fixture.cfg (VDict [("cui", VStr "RO123")])
           "Expecting value: line 1 column 1 (char 0)" Fixture.world0).
  right. exists (VStr "{}"). split; reflexivity.
Defined.

(** ** Receipts *)

Lemma length_append (a b : string) :
  String.length (a +:+ b) = String.length a + String.length b.
Proof. induction a as [| c a IH]; simpl; [reflexivity | by rewrite IH]. Qed.

(** A common suffix can be cancelled. *)
Lemma append_inj_r (a b s : string) : a +:+ s = b +:+ s -> a = b.
Proof.
  revert b. induction a as [| c a IH]; intros [| d b] Heq; simpl in Heq.
  - reflexivity.
  - apply (f_equal String.length) in Heq.
    rewrite ?length_append in Heq. simpl in Heq. rewrite ?length_append in Heq. lia.
  - apply (f_equal String.length) in Heq.
    rewrite ?length_append in Heq. simpl in Heq. rewrite ?length_append in Heq. lia.
  - injection Heq as -> Heq. by rewrite (IH b Heq).
Qed.

Section ReceiptFacts.

Variable fpdf_reply : list PdfOp -> PdfOp -> result string unit.
Variable uuid4 : nat -> string.
Variable float_str : float -> string.

(** What a returning [generate_pdf] returned, and what it drew. *)
Lemma generate_pdf_return_inv (request : PDFRequest) (w : World) (body : value) :
  fst (generate_pdf fpdf_reply uuid4 float_str request w) = Return body ->
  body = VDict [("msg", VStr "PDF successfully generated");
                ("filename", VStr ("tax_declaration_" +:+ uuid4 (entropy w) +:+ ".pdf"))]
  /\ entropy (snd (generate_pdf fpdf_reply uuid4 float_str request w)) = S (entropy w).
Proof.
  unfold generate_pdf, try_except, bind, pdf_call, uuid_uuid4, logging_error, raise, ret.
  cbn.
  repeat (match goal with
          | |- context [fpdf_reply ?ops ?op] => destruct (fpdf_reply ops op); cbn
          end);
    intros H; try discriminate H.
  injection H as <-. split; reflexivity.
Qed.

End ReceiptFacts.

(** X14. [generate_pdf] has two outcomes only.  Either every call on the
    PDF object succeeded: the response names the file
    ["tax_declaration_" + uuid + ".pdf"] for the uuid just drawn, that is the
    file the object was told to write, and nothing is logged.  Or some call
    raised: the handler raises status 500 with the fixed detail
    "Failed to generate PDF", and the cause goes to the log only. *)
Theorem generate_pdf_writes_or_hides_cause
    (fpdf_reply : list PdfOp -> PdfOp -> result string unit)
    (uuid4 : nat -> string) (float_str : float -> string)
    (request : PDFRequest) (w : World) :
  let run := generate_pdf fpdf_reply uuid4 float_str request w in
  let filename := "tax_declaration_" +:+ uuid4 (entropy w) +:+ ".pdf" in
  (fst run = Return (VDict [("msg", VStr "PDF successfully generated");
                            ("filename", VStr filename)])
   /\ fpdf_reply (pdf_page float_str request) (Output filename) = Return tt
   /\ logged (snd run) = logged w)
  \/ (fst run = Raise (HTTPException 500 "Failed to generate PDF")
      /\ exists e : string, logged (snd run) = logged w ++ ["Failed to generate PDF: " +:+ e]).
Proof.
  intros run filename. subst run filename.
  unfold generate_pdf, try_except, bind, pdf_call, uuid_uuid4, logging_error, raise, ret,
    pdf_page.
  cbn.
  repeat (match goal with
          | |- context [match fpdf_reply ?ops ?op with _ => _ end] =>
              let H := fresh "Hop" in destruct (fpdf_reply ops op) as [[] | ?] eqn:H; cbn
          end);
    try (right; split; [reflexivity | eexists; reflexivity]).
  left. split; [reflexivity |]. split; reflexivity.
Qed.

(** X15. Two receipts generated one after the other get different file
    names, provided the two uuid draws differ: the second never overwrites
    the first. *)
Theorem generate_pdf_filenames_differ
    (fpdf_reply : list PdfOp -> PdfOp -> result string unit)
    (uuid4 : nat -> string) (float_str : float -> string)
    (request1 request2 : PDFRequest) (w : World) (body1 body2 : value) :
  let w1 := snd (generate_pdf fpdf_reply uuid4 float_str request1 w) in
  fst (generate_pdf fpdf_reply uuid4 float_str request1 w) = Return body1 ->
  fst (generate_pdf fpdf_reply uuid4 float_str request2 w1) = Return body2 ->
  uuid4 (entropy w) <> uuid4 (S (entropy w)) ->
  dict_item "filename" body1 <> dict_item "filename" body2.
Proof.
  intros w1 H1 H2 Hfresh.
  destruct (generate_pdf_return_inv _ _ _ _ _ _ H1) as [-> Hen].
  destruct (generate_pdf_return_inv _ _ _ _ _ _ H2) as [-> _].
  fold w1 in Hen. rewrite Hen.
  change (Some (VStr ("tax_declaration_" +:+ uuid4 (entropy w) +:+ ".pdf"))
          <> Some (VStr ("tax_declaration_" +:+ uuid4 (S (entropy w)) +:+ ".pdf"))).
  intros [= Heq]. apply Hfresh.
  change (uuid4 (entropy w) +:+ ".pdf" = uuid4 (S (entropy w)) +:+ ".pdf") in Heq.
  by apply append_inj_r in Heq.
Qed.

(** X15 for the same receipt requested twice. *)
Lemma generate_pdf_filenames_differ_witness :
  dict_item "filename"
    (VDict [("msg", VStr "PDF successfully generated");
            ("filename",
             VStr "tax_declaration_0b9f7c2e-0000-4000-8000-00000000000a.pdf")])
  <> dict_item "filename"
       (VDict [("msg", VStr "PDF successfully generated");
               ("filename",
                VStr "tax_declaration_0b9f7c2e-0000-4000-8000-00000000000b.pdf")]).
Proof.
  apply (generate_pdf_filenames_differ Fixture.fpdf_reply Fixture.uuid4 Fixture.float_str
           Fixture.bon Fixture.bon Fixture.world0);
    [reflexivity | reflexivity | discriminate].
Defined.

(** ** Tax computation at zero *)





